(** * A shallow embedding of the vite-react-tailwind template

    The template is a small TypeScript project: an Express server
    (server/src/config/config.ts, app.ts, index.ts,
    middleware/middleware.ts, routes/health.ts) and a React client
    (client/src/pages/AppPage/AppPage.tsx).  The modules [Config],
    [Middleware], [Health], [App], [Index] and [AppPage] embed one source
    file each.  [JS] and [JSDate] hold the ECMAScript built-ins those files
    call ([parseInt], [isNaN], [||], [Date.prototype.toISOString]), [Http]
    and [Express] the request, the response and the framework's walk over
    the registered layers.  The third-party middleware (helmet, cors,
    compression, the body parsers) and the framework's path matching are
    parameters of the development, gathered in the class [Platform].
    [Lifecycle] embeds the startup half of index.ts, [Dotenv] the loading
    of the .env file in config.ts, [Serving] the application answering
    requests one after the other, and [JSText] the built-ins these need
    ([String.prototype.includes], [String(number)], [padEnd]).

    Conventions.  A JavaScript string is a Rocq [string] whose characters
    are the code units below 256.  A number that [parseInt] returns is
    [NaN], an infinity or a double with an integer value, held as that
    integer: [JS.toNumber] rounds an integer to the nearest double as the
    runtime does, so integers are exact up to 2^53 and rounded beyond.
    [process.env] is a finite map from names to strings.  The one text
    with characters above 255, the frame of the startup banner, is held as
    UTF-8 bytes.

    The first part of the file holds the definitions, the second part the
    properties. *)

From Stdlib Require Import ZArith String Ascii List Lia.
From Stdlib Require QArith.
From stdpp Require Import gmap strings.
Import ListNotations.

Local Open Scope string_scope.
Local Open Scope list_scope.
Local Open Scope Z_scope.

(* ===================================================================== *)
(** ** ECMAScript built-ins used by the sources                           *)
(* ===================================================================== *)

Module JS.

(** The code unit of a character. *)
Definition code (c : ascii) : Z := Z.of_N (N_of_ascii c).

(** [WhiteSpace] and [LineTerminator] code units below 256: TAB, LF, VT,
    FF, CR, SP and NBSP. *)
Definition isWhiteSpace (c : ascii) : bool :=
  let n := code c in
  (n =? 9) || (n =? 10) || (n =? 11) || (n =? 12) || (n =? 13)
  || (n =? 32) || (n =? 160).

(** [TrimString(s, start)]. *)
Fixpoint trimStart (s : string) : string :=
  match s with
  | String c rest => if isWhiteSpace c then trimStart rest else s
  | EmptyString => EmptyString
  end.

(** The value of a character as a digit: 0-9, then a-z and A-Z for 10-35. *)
Definition digitValue (c : ascii) : option Z :=
  let n := code c in
  if (48 <=? n) && (n <=? 57) then Some (n - 48)
  else if (97 <=? n) && (n <=? 122) then Some (n - 87)
  else if (65 <=? n) && (n <=? 90) then Some (n - 55)
  else None.

(** A radix-[R] digit. *)
Definition radixDigit (R : Z) (c : ascii) : option Z :=
  match digitValue c with
  | Some d => if d <? R then Some d else None
  | None => None
  end.

(** The longest prefix of [s] made of radix-[R] digits, as digit values. *)
Fixpoint radixDigits (R : Z) (s : string) : list Z :=
  match s with
  | String c rest =>
      match radixDigit R c with
      | Some d => d :: radixDigits R rest
      | None => []
      end
  | EmptyString => []
  end.

(** The integer a list of radix-[R] digits denotes, most significant first. *)
Definition mathInt (R : Z) (ds : list Z) : Z :=
  fold_left (fun acc d => R * acc + d) ds 0.

(** A number as [parseInt] returns it: [NaN], a double whose value is the
    integer [v], or an infinity.  (Minus zero is held as [Num 0].) *)
Inductive number : Type :=
| NaN
| Num (v : Z)
| PosInfinity
| NegInfinity.

(** The integers a double holds exactly: [Number.isSafeInteger]. *)
Definition safeInteger (n : Z) : Prop := - (2 ^ 53) < n < 2 ^ 53.

(** The nearest among the integers that are doubles to [m > 0], ties to
    the even significand: a double has 53 significant bits, so [m] keeps
    its 53 leading bits and the bits below them are rounded off. *)
Definition roundToDouble (m : Z) : Z :=
  let e := Z.log2 m - 52 in
  if e <=? 0 then m
  else
    let q := m / 2 ^ e in
    let r := m mod 2 ^ e in
    let half := 2 ^ (e - 1) in
    let q' := if r <? half then q
              else if half <? r then q + 1
              else if Z.even q then q else q + 1 in
    q' * 2 ^ e.

(** The Number value for the integer [n] (ECMA-262 section 6.1.6.1): the
    nearest double, an infinity when that would be 2^1024 or beyond. *)
Definition toNumber (n : Z) : number :=
  let r := roundToDouble (Z.abs n) in
  if 2 ^ 1024 <=? r then (if n <? 0 then NegInfinity else PosInfinity)
  else Num (Z.sgn n * r).

Definition startsWith0x (s : string) : bool :=
  match s with
  | String a (String b _) => (code a =? 48) && ((code b =? 120) || (code b =? 88))
  | _ => false
  end.

(** [parseInt(string, radix)], ECMA-262 section 19.2.5.  The result is the
    Number value for the integer the digits denote; the standard lets an
    implementation approximate that integer past the 20th digit (in
    radix 10) and in the radices that are not powers of two, and the
    runtime of the sources rounds the exact integer, as here. *)
Definition parseInt (input : string) (radix : Z) : number :=
  let trimmed := trimStart input in
  let sign := match trimmed with
              | String c _ => if code c =? 45 then -1 else 1
              | EmptyString => 1
              end in
  let unsigned := match trimmed with
                  | String c rest =>
                      if (code c =? 43) || (code c =? 45) then rest else trimmed
                  | EmptyString => trimmed
                  end in
  if negb (radix =? 0) && ((radix <? 2) || (36 <? radix)) then NaN
  else
    let stripPrefix := (radix =? 0) || (radix =? 16) in
    let R := if radix =? 0 then 10 else radix in
    let '(R, body) :=
      if stripPrefix && startsWith0x unsigned
      then (16, match unsigned with String _ (String _ r) => r | _ => unsigned end)
      else (R, unsigned) in
    match radixDigits R body with
    | [] => NaN
    | ds => toNumber (sign * mathInt R ds)
    end.

Definition isNaN (n : number) : bool :=
  match n with
  | NaN => true
  | _ => false
  end.

(** [ToBoolean] on [string | undefined]: [undefined] and the empty string
    are falsy. *)
Definition truthy (v : option string) : bool :=
  match v with
  | Some (String _ _) => true
  | Some EmptyString => false
  | None => false
  end.

(** [a || b] where [a : string | undefined] and [b : string]. *)
Definition or (a : option string) (b : string) : string :=
  match a with
  | Some s => if truthy a then s else b
  | None => b
  end.

(** The decimal digit character of [d], for [0 <= d <= 9]. *)
Definition digitChar (d : Z) : ascii := ascii_of_N (Z.to_N (48 + d)).

(** A string of decimal digits, from digit values. *)
Fixpoint digitString (ds : list Z) : string :=
  match ds with
  | [] => EmptyString
  | d :: rest => String (digitChar d) (digitString rest)
  end.

(** The sign an integer is written with. *)
Inductive Sign : Type :=
| NoSign
| PlusSign
| MinusSign.

Definition signText (sg : Sign) : string :=
  match sg with
  | NoSign => ""
  | PlusSign => "+"
  | MinusSign => "-"
  end.

Definition signValue (sg : Sign) : Z :=
  match sg with
  | MinusSign => -1
  | _ => 1
  end.

(** The head of [s], if any, is not a decimal digit. *)
Definition noLeadingDigit (s : string) : bool :=
  match s with
  | String c _ => match radixDigit 10 c with Some _ => false | None => true end
  | EmptyString => true
  end.

(** One optional sign character removed. *)
Definition dropSign (s : string) : string :=
  match s with
  | String c rest => if (code c =? 43) || (code c =? 45) then rest else s
  | EmptyString => s
  end.

(** What [parseInt] cannot read: after leading white space and one
    optional sign the string does not start with a decimal digit, as in
    "not-a-number", "abc", "", "  " or "-x". *)
Definition noLeadingInteger (s : string) : bool :=
  noLeadingDigit (dropSign (trimStart s)).

Fixpoint allDecimalDigits (s : string) : bool :=
  match s with
  | String c rest =>
      match radixDigit 10 c with
      | Some _ => allDecimalDigits rest
      | None => false
      end
  | EmptyString => true
  end.

(** A numeric string: an optional sign, then decimal digits and nothing
    else, as in "4000" or "-12".  "80abc", "3.9" and "not-a-number" are
    non-numeric. *)
Definition numericString (s : string) : bool :=
  match dropSign s with
  | EmptyString => false
  | String c rest => allDecimalDigits (String c rest)
  end.

End JS.

Module JSDate.
Import JS.

(** *** Dates: ECMA-262 section 21.4.1.  A time value is a number of
    milliseconds since the epoch; [new Date()] holds the clock's. *)

Definition msPerDay : Z := 86400000.
Definition msPerHour : Z := 3600000.
Definition msPerMinute : Z := 60000.
Definition msPerSecond : Z := 1000.

(** The range of time values: 100,000,000 days either side of the epoch. *)
Definition validTime (t : Z) : Prop := -8640000000000000 <= t <= 8640000000000000.

Definition Day (t : Z) : Z := t / msPerDay.
Definition TimeWithinDay (t : Z) : Z := t mod msPerDay.

Definition isLeapYear (y : Z) : bool :=
  if negb (y mod 4 =? 0) then false
  else if negb (y mod 100 =? 0) then true
  else if negb (y mod 400 =? 0) then false
  else true.

Definition DaysInYear (y : Z) : Z := if isLeapYear y then 366 else 365.

Definition DayFromYear (y : Z) : Z :=
  365 * (y - 1970) + (y - 1969) / 4 - (y - 1901) / 100 + (y - 1601) / 400.

(** The largest [y] with [DayFromYear y <= d]: an estimate from the mean
    length of a year, corrected by at most one. *)
Definition YearFromDay (d : Z) : Z :=
  let y := 1970 + (400 * d) / 146097 in
  if d <? DayFromYear y then y - 1
  else if DayFromYear (y + 1) <=? d then y + 1
  else y.

Definition YearFromTime (t : Z) : Z := YearFromDay (Day t).
Definition DayWithinYear (t : Z) : Z := Day t - DayFromYear (YearFromTime t).
Definition InLeapYear (t : Z) : Z := if isLeapYear (YearFromTime t) then 1 else 0.

(** The day within the year on which month [m] (0-11) starts; [m = 12]
    gives the length of the year. *)
Definition monthStart (m leap : Z) : Z :=
  match m with
  | 0 => 0
  | 1 => 31
  | 2 => 59 + leap
  | 3 => 90 + leap
  | 4 => 120 + leap
  | 5 => 151 + leap
  | 6 => 181 + leap
  | 7 => 212 + leap
  | 8 => 243 + leap
  | 9 => 273 + leap
  | 10 => 304 + leap
  | 11 => 334 + leap
  | _ => 365 + leap
  end.

Definition monthOfDay (dwy leap : Z) : Z :=
  if dwy <? 31 then 0
  else if dwy <? 59 + leap then 1
  else if dwy <? 90 + leap then 2
  else if dwy <? 120 + leap then 3
  else if dwy <? 151 + leap then 4
  else if dwy <? 181 + leap then 5
  else if dwy <? 212 + leap then 6
  else if dwy <? 243 + leap then 7
  else if dwy <? 273 + leap then 8
  else if dwy <? 304 + leap then 9
  else if dwy <? 334 + leap then 10
  else 11.

Definition MonthFromTime (t : Z) : Z := monthOfDay (DayWithinYear t) (InLeapYear t).
Definition DateFromTime (t : Z) : Z :=
  DayWithinYear t - monthStart (MonthFromTime t) (InLeapYear t) + 1.

Definition HourFromTime (t : Z) : Z := (t / msPerHour) mod 24.
Definition MinFromTime (t : Z) : Z := (t / msPerMinute) mod 60.
Definition SecFromTime (t : Z) : Z := (t / msPerSecond) mod 60.
Definition msFromTime (t : Z) : Z := t mod msPerSecond.

Definition MakeTime (hour min sec ms : Z) : Z :=
  hour * msPerHour + min * msPerMinute + sec * msPerSecond + ms.

(** [MakeDay] for a month already in 0-11. *)
Definition MakeDay (year month date : Z) : Z :=
  DayFromYear year + monthStart month (if isLeapYear year then 1 else 0) + date - 1.

Definition MakeDate (day time : Z) : Z := day * msPerDay + time.

Definition DaysInMonth (year month : Z) : Z :=
  let leap := if isLeapYear year then 1 else 0 in
  monthStart (month + 1) leap - monthStart month leap.

(** [k] decimal digits of [n], most significant first, zero padded. *)
Fixpoint padDigits (k : nat) (n : Z) : string :=
  match k with
  | O => EmptyString
  | S k' => String (digitChar ((n / 10 ^ Z.of_nat k') mod 10)) (padDigits k' n)
  end.

(** The year of the Date Time String Format: four digits, or a sign and six
    digits outside 0-9999. *)
Definition formatYear (y : Z) : string :=
  if (0 <=? y) && (y <=? 9999) then padDigits 4 y
  else if y <? 0 then String "-" (padDigits 6 (- y))
  else String "+" (padDigits 6 y).

(** [Date.prototype.toISOString] at a valid time value:
    YYYY-MM-DDTHH:mm:ss.sssZ. *)
Definition toISOString (t : Z) : string :=
  formatYear (YearFromTime t) +:+
  String "-" (padDigits 2 (MonthFromTime t + 1) +:+
  String "-" (padDigits 2 (DateFromTime t) +:+
  String "T" (padDigits 2 (HourFromTime t) +:+
  String ":" (padDigits 2 (MinFromTime t) +:+
  String ":" (padDigits 2 (SecFromTime t) +:+
  String "." (padDigits 3 (msFromTime t) +:+ "Z")))))).

(** Reads exactly [k] decimal digits. *)
Fixpoint readDigits (k : nat) (acc : Z) (s : string) : option (Z * string) :=
  match k with
  | O => Some (acc, s)
  | S k' =>
      match s with
      | String c rest =>
          match radixDigit 10 c with
          | Some d => readDigits k' (10 * acc + d) rest
          | None => None
          end
      | EmptyString => None
      end
  end.

Definition expect (c : ascii) (s : string) : option string :=
  match s with
  | String c' rest => if Ascii.eqb c c' then Some rest else None
  | EmptyString => None
  end.

Definition readYear (s : string) : option (Z * string) :=
  match s with
  | String c rest =>
      if Ascii.eqb c "+" then readDigits 6 0 rest
      else if Ascii.eqb c "-" then
        match readDigits 6 0 rest with
        | Some (y, rest') => if y =? 0 then None else Some (- y, rest')
        | None => None
        end
      else readDigits 4 0 s
  | EmptyString => None
  end.

(** [Date.parse] on the full UTC form of the Date Time String Format
    (section 21.4.1.32), the form [toISOString] writes: the time value, or
    [None] when the string is not of that form or a field is out of range.
    (The other forms [Date.parse] reads are not needed here.) *)
Definition parseISO (s : string) : option Z :=
  '(year, s) ← readYear s;
  s ← expect "-" s;
  '(month, s) ← readDigits 2 0 s;
  s ← expect "-" s;
  '(date, s) ← readDigits 2 0 s;
  s ← expect "T" s;
  '(hour, s) ← readDigits 2 0 s;
  s ← expect ":" s;
  '(min, s) ← readDigits 2 0 s;
  s ← expect ":" s;
  '(sec, s) ← readDigits 2 0 s;
  s ← expect "." s;
  '(ms, s) ← readDigits 3 0 s;
  s ← expect "Z" s;
  if String.eqb s ""
     && (1 <=? month) && (month <=? 12)
     && (1 <=? date) && (date <=? DaysInMonth year (month - 1))
     && (hour <=? 23) && (min <=? 59) && (sec <=? 59)
  then Some (MakeDate (MakeDay year (month - 1) date) (MakeTime hour min sec ms))
  else None.

End JSDate.

(* ===================================================================== *)
(** ** server/src/config/config.ts                                        *)
(* ===================================================================== *)

Module Config.

Import JS.

(** [function env(key, defaultValue)]: [process.env[key] || defaultValue].
    [processEnv] is [process.env] as the module reads it, after
    [dotenvConfig] has loaded the .env file into it. *)
Definition env (processEnv : gmap string string) (key defaultValue : string) : string :=
  or (processEnv !! key) defaultValue.

(** [function envNumber(key, defaultValue)]. *)
Definition envNumber (processEnv : gmap string string) (key : string)
    (defaultValue : number) : number :=
  match processEnv !! key with
  | None => defaultValue
  | Some value =>
      let parsed := parseInt value 10 in
      if isNaN parsed then defaultValue else parsed
  end.

Record ServerConfig : Type := {
  port : number;
  nodeEnv : string;
  isDev : bool;
  isProd : bool;
  clientUrl : string;
  logLevel : string;
  requestTimeout : number
}.

(** [export const serverConfig = { ... }], evaluated once at import. *)
Definition serverConfig (processEnv : gmap string string) : ServerConfig := {|
  port := envNumber processEnv "PORT" (Num 3000);
  nodeEnv := env processEnv "NODE_ENV" "development";
  isDev := String.eqb (env processEnv "NODE_ENV" "development") "development";
  isProd := String.eqb (env processEnv "NODE_ENV" "development") "production";
  clientUrl := "http://localhost:" +:+ env processEnv "VITE_DEV_PORT" "5173";
  logLevel := env processEnv "LOG_LEVEL" "info";
  requestTimeout := envNumber processEnv "REQUEST_TIMEOUT" (Num 30000)
|}.

Record AppConfig : Type := { server : ServerConfig }.

(** [export const config = { server: serverConfig }]. *)
Definition config (processEnv : gmap string string) : AppConfig :=
  {| server := serverConfig processEnv |}.

End Config.

(* ===================================================================== *)
(** ** Requests, responses and the process, as the server code sees them  *)
(* ===================================================================== *)

Module Http.

(** A JSON value; numbers are exact rationals (the runtime's are doubles). *)
#[warnings="-register-all"]
Inductive Json : Type :=
| JNull
| JBool (b : bool)
| JString (s : string)
| JNumber (q : QArith_base.Q)
| JArray (items : list Json)
| JObject (fields : list (string * Json)).

(** The value of the field [key] of an object, [None] for [undefined];
    of a name written twice the last value counts. *)
Fixpoint field (key : string) (fields : list (string * Json)) : option Json :=
  match fields with
  | [] => None
  | (k, v) :: rest =>
      match field key rest with
      | Some v' => Some v'
      | None => if String.eqb k key then Some v else None
      end
  end.

Record Request : Type := {
  method : string;
  url : string;
  headers : list (string * string);
  rawBody : string;
  body : option Json
}.

(** What was sent: nothing yet, a JSON body, an empty body, or the page
    of the framework's default handler. *)
Inductive Payload : Type :=
| NotSent
| SentJson (j : Json)
| SentEmpty
| SentDefault.

Record Response : Type := {
  statusCode : Z;
  resHeaders : list (string * string);
  payload : Payload
}.

(** A [ServerResponse] as Node creates it: status 200, nothing sent. *)
Definition freshResponse : Response :=
  {| statusCode := 200; resHeaders := []; payload := NotSent |}.

(** What the handlers read and write outside the request: the system
    clock ([new Date()], milliseconds since the epoch), the time since the
    process started ([process.uptime()], kept in nanoseconds) and the
    console, a list of (method, text) calls, oldest first.  One request is
    handled within one reading of the clock. *)
Record World : Type := {
  clock : Z;
  uptimeNanos : N;
  console : list (string * string)
}.

Definition consoleCall (level text : string) (w : World) : World :=
  {| clock := clock w; uptimeNanos := uptimeNanos w;
     console := console w ++ [(level, text)] |}.

(** [process.uptime()]: seconds since the process started, as an exact
    rational (the runtime returns the double nearest to it). *)
Definition processUptime (w : World) : QArith_base.Q :=
  QArith_base.Qmake (Z.of_N (uptimeNanos w)) 1000000000.

(** [res.json(obj)]: sends [obj] with the status the response has. *)
Definition resJson (obj : Json) (res : Response) : Response :=
  {| statusCode := statusCode res;
     resHeaders := resHeaders res ++ [("Content-Type", "application/json; charset=utf-8")];
     payload := SentJson obj |}.

End Http.

(* ===================================================================== *)
(** ** The web framework and the third-party middleware                   *)
(* ===================================================================== *)

Module Express.

Import Http.

(** An error as the framework sees it: the status it carries, if any
    ([err.status]), and the text printed for it ([err.stack]). *)
Record HttpError : Type := {
  errStatus : option Z;
  errStack : string
}.

(** What a handler does with a request: pass it on ([next()]), end the
    response, or pass an error on ([next(err)], or an exception). *)
Inductive Outcome : Type :=
| Next (req : Request) (res : Response) (w : World)
| End (res : Response) (w : World)
| Error (err : HttpError) (res : Response) (w : World).

Definition Handler : Type := Request -> Response -> World -> Outcome.

(** How a layer was registered: [app.use(fn)], [app.use(path, fn)] or
    [app.METHOD(path, fn)]. *)
Inductive Pattern : Type :=
| Always
| Mount (path : string)
| Route (method path : string).

(** The stages of this application. *)
Inductive StageName : Type :=
| Helmet
| Cors
| Compression
| RequestLogger
| JsonParser
| UrlencodedParser
| HealthRoute
| ApiHealthRouter
| ApiHealthRoot.

#[global] Instance StageName_eq_dec : EqDecision StageName.
Proof. solve_decision. Defined.

Record Layer : Type := {
  name : StageName;
  pattern : Pattern;
  handle : Handler
}.

(** An application: its layers in registration order and its 'env'
    setting. *)
Record Application : Type := {
  stack : list Layer;
  envSetting : string
}.

(** What a third-party middleware may do with a request: pass it on,
    possibly with a parsed body and more response headers, end the
    response itself (a preflight answer), or pass an error on (a body
    parser that refuses a malformed body). *)
Inductive StageResult : Type :=
| Forward (parsedBody : option Json) (setHeaders : list (string * string))
| Terminate (res : Response)
| Fail (err : HttpError).

Definition Stage : Type := Request -> StageResult.

Record CorsOptions : Type := { origin : string; credentials : bool }.
Record UrlencodedOptions : Type := { extended : bool }.

(** The libraries the application is built on; none of them is part of
    the repository.  [matchLayer p method url] is the framework's matching
    of a request against a path-ful layer: the url the layer's handler
    sees, or [None]. *)
Class Platform : Type := {
  matchLayer : Pattern -> string -> string -> option string;
  helmet : Stage;
  cors : CorsOptions -> Stage;
  compression : Stage;
  express_json : Stage;
  express_urlencoded : UrlencodedOptions -> Stage
}.

Definition setBody (b : option Json) (req : Request) : Request :=
  match b with
  | Some j => {| method := method req; url := url req; headers := headers req;
                 rawBody := rawBody req; body := Some j |}
  | None => req
  end.

Definition setUrl (u : string) (req : Request) : Request :=
  {| method := method req; url := u; headers := headers req;
     rawBody := rawBody req; body := body req |}.

Definition addHeaders (hs : list (string * string)) (res : Response) : Response :=
  {| statusCode := statusCode res; resHeaders := resHeaders res ++ hs;
     payload := payload res |}.

(** A third-party middleware as a handler. *)
Definition thirdParty (st : Stage) : Handler :=
  fun req res w =>
    match st req with
    | Forward b hs => Next (setBody b req) (addHeaders hs res) w
    | Terminate r => End r w
    | Fail err => Error err res w
    end.

Section Dispatch.
Context `{Platform}.

Definition layerMatch (p : Pattern) (req : Request) : option Request :=
  match p with
  | Always => Some req
  | _ => match matchLayer p (method req) (url req) with
         | Some u => Some (setUrl u req)
         | None => None
         end
  end.

(** Modelled from the spec: the framework's walk over the registered
    layers (section 4.2: the stages run in registration order, a stage that
    ends the response stops the walk; item 6: the first handler whose
    pattern matches runs).  An error skips the layers that remain, none of
    which handles errors.  The framework itself is a library outside
    src/.  The result carries the names of the layers that ran. *)
Fixpoint dispatch (layers : list Layer) (req : Request) (res : Response)
    (w : World) : list StageName * Outcome :=
  match layers with
  | [] => ([], Next req res w)
  | l :: rest =>
      match layerMatch (pattern l) req with
      | None => dispatch rest req res w
      | Some req' =>
          match handle l req' res w with
          | Next req'' res' w' =>
              let '(ran, out) := dispatch rest (setUrl (url req) req'') res' w' in
              (name l :: ran, out)
          | End res' w' => ([name l], End res' w')
          | Error err res' w' => ([name l], Error err res' w')
          end
      end
  end.

(** Modelled from the spec: the default handler (section 4.2 item 6: if no
    handler matches, a default handler returns a 404 with no body
    requirements).  The headers the handler sets are not modelled. *)
Definition finalhandler (res : Response) : Response :=
  {| statusCode := 404; resHeaders := resHeaders res; payload := SentDefault |}.

(** The status the default handler answers an error with: the status of
    the error when it is a 4xx or 5xx, else that of the response when it
    is one, else 500. *)
Definition errorStatus (err : HttpError) (res : Response) : Z :=
  let isError s := (400 <=? s) && (s <? 600) in
  let fallback := if isError (statusCode res) then statusCode res else 500 in
  match errStatus err with
  | Some s => if isError s then s else fallback
  | None => fallback
  end.

(** The framework prints an error that reaches the default handler,
    unless the 'env' setting is "test":
    [if (this.get('env') !== 'test') console.error(err.stack)]. *)
Definition logerror (envSetting : string) (err : HttpError) (w : World) : World :=
  if String.eqb envSetting "test" then w else consoleCall "error" (errStack err) w.

(** Modelled from the spec: the default handler on an error (section 4.2
    item 5 and section 7: a malformed body is surfaced as a 4xx response
    from the parsing stage and never reaches a route handler).  It
    answers with the status of the error and the framework prints the
    error.  The headers the handler sets are not modelled. *)
Definition finalhandlerError (envSetting : string) (err : HttpError)
    (res : Response) (w : World) : Response * World :=
  ({| statusCode := errorStatus err res; resHeaders := resHeaders res;
      payload := SentDefault |},
   logerror envSetting err w).

(** One request through an application. *)
Definition handleRequest (app : Application) (req : Request) (w : World)
    : list StageName * (Response * World) :=
  match dispatch (stack app) req freshResponse w with
  | (ran, Next _ res w') => (ran, (finalhandler res, w'))
  | (ran, End res w') => (ran, (res, w'))
  | (ran, Error err res w') => (ran, finalhandlerError (envSetting app) err res w')
  end.

(** [express()], which sets 'env' to [process.env.NODE_ENV ||
    "development"]; [app.use(fn)], [app.use(path, fn)],
    [app.get(path, fn)]. *)
Definition express (processEnv : gmap string string) : Application :=
  {| stack := []; envSetting := JS.or (processEnv !! "NODE_ENV") "development" |}.

Definition register (l : Layer) (app : Application) : Application :=
  {| stack := stack app ++ [l]; envSetting := envSetting app |}.

Definition use (n : StageName) (h : Handler) : Application -> Application :=
  register {| name := n; pattern := Always; handle := h |}.

Definition useAt (path : string) (n : StageName) (h : Handler) : Application -> Application :=
  register {| name := n; pattern := Mount path; handle := h |}.

Definition get (path : string) (n : StageName) (h : Handler) : Application -> Application :=
  register {| name := n; pattern := Route "GET" path; handle := h |}.

(** A router used as a handler: its own layers, then [next()]. *)
Definition router (layers : list Layer) : Handler :=
  fun req res w => snd (dispatch layers req res w).

End Dispatch.

End Express.

(* ===================================================================== *)
(** ** server/src/middleware/middleware.ts                                *)
(* ===================================================================== *)

Module Middleware.

Import Http Express.

(** [export function requestLogger(req, _res, next)]. *)
Definition requestLogger : Handler :=
  fun req res w =>
    let timestamp := JSDate.toISOString (clock w) in
    Next req res
      (consoleCall "info" ("[" +:+ timestamp +:+ "] " +:+ method req +:+ " " +:+ url req) w).

End Middleware.

(* ===================================================================== *)
(** ** server/src/routes/health.ts                                        *)
(* ===================================================================== *)

Module Health.

Import Http Express.

(** Modelled from the spec: the handler of the health router, a file of
    the repository that is not under src/ (section 4.3: GET /api/health
    answers 200 with status "ok", message "Server is running" and the
    current time as timestamp). *)
Definition apiHealthHandler : Handler :=
  fun _req res w =>
    End (resJson (JObject [("status", JString "ok");
                           ("message", JString "Server is running");
                           ("timestamp", JString (JSDate.toISOString (clock w)))])
                 res) w.

(** Modelled from the spec: the health router, one GET route at its root. *)
Definition healthRouter `{Platform} : Handler :=
  router [ {| name := ApiHealthRoot; pattern := Route "GET" "/";
              handle := apiHealthHandler |} ].

End Health.

(* ===================================================================== *)
(** ** server/src/app.ts                                                  *)
(* ===================================================================== *)

Module App.

Import Http Express.

(** The handler of [app.get("/health", (_req, res) => ...)]. *)
Definition healthHandler : Handler :=
  fun _req res w =>
    End (resJson (JObject [("status", JString "ok");
                           ("timestamp", JString (JSDate.toISOString (clock w)));
                           ("uptime", JNumber (processUptime w))])
                 res) w.

(** [export function createApp()]; [CLIENT_URL] is
    [config.server.clientUrl], and [express()] reads [process.env]. *)
Definition createApp `{Platform} (processEnv : gmap string string) : Application :=
  let CLIENT_URL := Config.clientUrl (Config.server (Config.config processEnv)) in
  let app := express processEnv in
  let app := use Helmet (thirdParty helmet) app in
  let app := use Cors (thirdParty (cors {| origin := CLIENT_URL; credentials := true |})) app in
  let app := use Compression (thirdParty compression) app in
  let app := use RequestLogger Middleware.requestLogger app in
  let app := use JsonParser (thirdParty express_json) app in
  let app := use UrlencodedParser (thirdParty (express_urlencoded {| extended := true |})) app in
  let app := get "/health" HealthRoute healthHandler app in
  let app := useAt "/api/health" ApiHealthRouter Health.healthRouter app in
  app.

(** A layer registered with [app.use(fn)]: it sees every request. *)
Definition isMiddleware (l : Layer) : bool :=
  match pattern l with
  | Always => true
  | _ => false
  end.

Definition middlewareLayers (app : Application) : list Layer :=
  List.filter isMiddleware (stack app).

(** The layers registered with a path. *)
Definition routeLayers (app : Application) : list Layer :=
  List.filter (fun l => negb (isMiddleware l)) (stack app).

(** What a middleware leaves alone when it passes a request on: the
    request line, the status and payload of the response, the clock. *)
Definition preserved (req : Request) (res : Response) (w : World) (out : Outcome) : Prop :=
  match out with
  | Next req' res' w' =>
      method req' = method req /\ url req' = url req
      /\ statusCode res' = statusCode res /\ payload res' = payload res
      /\ clock w' = clock w /\ uptimeNanos w' = uptimeNanos w
  | End _ _ => True
  | Error _ _ _ => True
  end.

(** A layer that sees every request and leaves those alone. *)
Definition benign (l : Layer) : Prop :=
  pattern l = Always /\ forall req res w, preserved req res w (handle l req res w).

(** The order section 4.2 fixes for the stages that see every request. *)
Definition middlewareOrder : list StageName :=
  [Helmet; Cors; Compression; RequestLogger; JsonParser; UrlencodedParser].

(** Modelled from the spec: the stage each name of section 4.2 stands for,
    with the options app.ts gives it (security headers: helmet;
    cross-origin policy: cors with the client url as origin and
    credentials; compression; request logging: [requestLogger]; body
    parsing: the JSON parser, then the URL-encoded one), and the handlers
    of section 4.3. *)
Definition stageHandler `{Platform} (processEnv : gmap string string)
    (n : StageName) : Handler :=
  match n with
  | Helmet => thirdParty helmet
  | Cors =>
      thirdParty (cors {| origin := Config.clientUrl
                                      (Config.server (Config.config processEnv));
                          credentials := true |})
  | Compression => thirdParty compression
  | RequestLogger => Middleware.requestLogger
  | JsonParser => thirdParty express_json
  | UrlencodedParser => thirdParty (express_urlencoded {| extended := true |})
  | HealthRoute => healthHandler
  | ApiHealthRouter => Health.healthRouter
  | ApiHealthRoot => Health.apiHealthHandler
  end.

(** Modelled from the spec (section 4.2): the stages run in the order
    given, each once, on the request and the response as the stage before
    left them; a stage that ends the response, or fails, stops the
    chain. *)
Fixpoint pipeline `{Platform} (processEnv : gmap string string)
    (stages : list StageName) (req : Request) (res : Response) (w : World)
    : list StageName * Outcome :=
  match stages with
  | [] => ([], Next req res w)
  | n :: rest =>
      match stageHandler processEnv n req res w with
      | Next req' res' w' =>
          let '(ran, out) := pipeline processEnv rest req' res' w' in
          (n :: ran, out)
      | out => ([n], out)
      end
  end.

(** No middleware ends the response: the request reaches route dispatch. *)
Definition reachesRoutes `{Platform} (app : Application) (req : Request)
    (w : World) : Prop :=
  exists req' res' w',
    snd (dispatch (middlewareLayers app) req freshResponse w) = Next req' res' w'.

(** The request matches a registered route: GET /health, or the route of
    the router mounted at /api/health. *)
Definition matchesRoute `{Platform} (req : Request) : bool :=
  match matchLayer (Route "GET" "/health") (method req) (url req) with
  | Some _ => true
  | None =>
      match matchLayer (Mount "/api/health") (method req) (url req) with
      | Some u =>
          match matchLayer (Route "GET" "/") (method req) u with
          | Some _ => true
          | None => false
          end
      | None => false
      end
  end.

End App.

(* ===================================================================== *)
(** ** server/src/index.ts                                                *)
(* ===================================================================== *)

Module Index.

Import Http.

(** The callback [gracefulShutdown] hands to [httpServer.close]:
    [() => { console.log("[Server] HTTP server closed") }]. *)
Inductive Callback : Type :=
| LogClosed.

(** [httpServer.close] is a method of the runtime's server object, and
    the tests replace it: [vi.spyOn(httpServer, "close").mockImplementation(
    (callback) => { if (typeof callback === "function") callback(); return
    httpServer })]. *)
Inductive CloseImpl : Type :=
| NodeClose
| MockClose.

(** The server object: whether it accepts connections, the callbacks
    waiting for its 'close' event, which [close] it has, and how many times
    [close] was called. *)
Record HttpServer : Type := {
  listening : bool;
  onClose : list Callback;
  closeImpl : CloseImpl;
  closeCalls : nat
}.

Record Process : Type := {
  world : World;
  httpServer : HttpServer
}.

Definition consoleLog (text : string) (p : Process) : Process :=
  {| world := consoleCall "log" text (world p); httpServer := httpServer p |}.

(** Calling a callback; [LogClosed] takes no argument, so an error passed
    to it is ignored. *)
Definition call (cb : Callback) (p : Process) : Process :=
  match cb with
  | LogClosed => consoleLog "[Server] HTTP server closed" p
  end.

(** [httpServer.close(cb)].  Node's [net.Server.close]: the server stops
    accepting connections and [cb] is called once the 'close' event occurs
    (with an error as argument when the server was not open).  The tests'
    mock calls [cb] at once. *)
Definition close (cb : Callback) (p : Process) : Process :=
  let s := httpServer p in
  match closeImpl s with
  | NodeClose =>
      {| world := world p;
         httpServer := {| listening := false; onClose := onClose s ++ [cb];
                          closeImpl := NodeClose; closeCalls := S (closeCalls s) |} |}
  | MockClose =>
      call cb {| world := world p;
                 httpServer := {| listening := listening s; onClose := onClose s;
                                  closeImpl := MockClose; closeCalls := S (closeCalls s) |} |}
  end.

(** The 'close' event, emitted by the runtime when the connections have
    drained: the waiting callbacks run, each once. *)
Definition emitClose (p : Process) : Process :=
  let s := httpServer p in
  fold_left (fun q cb => call cb q) (onClose s)
    {| world := world p;
       httpServer := {| listening := listening s; onClose := [];
                        closeImpl := closeImpl s; closeCalls := closeCalls s |} |}.

Definition newline : string := String (ascii_of_N 10) EmptyString.

Definition shutdownMessage (signal : string) : string :=
  newline +:+ "[Server] " +:+ signal +:+ " received, shutting down gracefully...".

(** [export function gracefulShutdown(signal)]. *)
Definition gracefulShutdown (signal : string) (p : Process) : Process :=
  let p := consoleLog (shutdownMessage signal) p in
  close LogClosed p.

(** Successive calls, first signal first. *)
Definition shutdowns (signals : list string) (p : Process) : Process :=
  fold_left (fun q signal => gracefulShutdown signal q) signals p.

(** The console calls made between [p] and a later state [q]. *)
Definition logged (p q : Process) : list (string * string) :=
  drop (length (console (world p))) (console (world q)).

Definition closedLine : string * string := ("log", "[Server] HTTP server closed").
Definition shutdownLine (signal : string) : string * string :=
  ("log", shutdownMessage signal).

Definition isShutdownLine (line : string * string) : bool :=
  String.eqb (fst line) "log"
  && String.prefix (newline +:+ "[Server] ") (snd line)
  && String.eqb
       (String.substring
          (String.length (snd line) - String.length " received, shutting down gracefully...")
          (String.length " received, shutting down gracefully...") (snd line))
       " received, shutting down gracefully...".

Definition isClosedLine (line : string * string) : bool :=
  String.eqb (fst line) "log" && String.eqb (snd line) "[Server] HTTP server closed".

(** Idempotence of the shutdown at a state and two signals: over the two
    calls (and the 'close' event after them) the transition is logged once
    and the confirmation at most once. *)
Definition idempotentAt (p : Process) (s1 s2 : string) : Prop :=
  let q := emitClose (gracefulShutdown s2 (gracefulShutdown s1 p)) in
  length (List.filter isShutdownLine (logged p q)) = 1%nat
  /\ (length (List.filter isClosedLine (logged p q)) <= 1)%nat.

(** A process as the tests drive it: nothing logged, not listening, the
    mocked [close]. *)
Definition mockedProcess : Process :=
  {| world := {| clock := 0; uptimeNanos := 0; console := [] |};
     httpServer := {| listening := false; onClose := []; closeImpl := MockClose;
                      closeCalls := 0 |} |}.

(** A process that listens, with the runtime's [close]. *)
Definition listeningProcess : Process :=
  {| world := {| clock := 0; uptimeNanos := 0; console := [] |};
     httpServer := {| listening := true; onClose := []; closeImpl := NodeClose;
                      closeCalls := 0 |} |}.

End Index.

(* ===================================================================== *)
(** ** client/src/pages/AppPage/AppPage.tsx                               *)
(* ===================================================================== *)

Module AppPage.

Import Http.

(** [ToBoolean] of a JSON value: [null], [false], zero and the empty
    string are falsy. *)
Definition truthyJson (j : Json) : bool :=
  match j with
  | JNull => false
  | JBool b => b
  | JString EmptyString => false
  | JString (String _ _) => true
  | JNumber q => negb (QArith_base.Qnum q =? 0)
  | JArray _ => true
  | JObject _ => true
  end.

(** [data.message] for a value [data] that is not [null]: the field of an
    object, [undefined] for a string, a number, a boolean or an array. *)
Definition messageOf (data : Json) : option Json :=
  match data with
  | JObject fields => field "message" fields
  | _ => None
  end.

(** The component's state: [const [count, setCount] = useState(0)] and
    [const [message, setMessage] = useState<string>("")].  [message] holds
    whatever [data.message] was: [None] is [undefined]. *)
Record State : Type := {
  count : Z;
  message : option Json
}.

(** The state at mount. *)
Definition mount : State := {| count := 0; message := Some (JString "") |}.

(** What happens to a mounted page: a click on the Increment button, and
    the outcome of the [fetch("/api/health")] the effect starts at mount:
    [res.json()] is fulfilled with [data], or the fetch or [res.json()] is
    rejected. *)
Inductive Event : Type :=
| ClickIncrement
| FetchResolved (data : Json)
| FetchRejected.

(** [setCount((c) => c + 1)]. *)
Definition setCount (f : Z -> Z) (s : State) : State :=
  {| count := f (count s); message := message s |}.

Definition setMessage (m : option Json) (s : State) : State :=
  {| count := count s; message := m |}.

(** [.then((data) => setMessage(data.message))
     .catch(() => setMessage("Server not connected"))]: reading
    [data.message] throws when [data] is [null], and the [catch] takes
    over. *)
Definition step (s : State) (e : Event) : State :=
  match e with
  | ClickIncrement => setCount (fun c => c + 1) s
  | FetchResolved JNull => setMessage (Some (JString "Server not connected")) s
  | FetchResolved data => setMessage (messageOf data) s
  | FetchRejected => setMessage (Some (JString "Server not connected")) s
  end.

Definition run (events : list Event) (s : State) : State :=
  fold_left step events s.

(** What the component hands to React for the two places of the page:
    [{count}] and [{message || "Loading..."}]. *)
Record View : Type := {
  counter : Z;
  status : Json
}.

Definition render (s : State) : View :=
  {| counter := count s;
     status := match message s with
               | Some j => if truthyJson j then j else JString "Loading..."
               | None => JString "Loading..."
               end |}.

Definition isClick (e : Event) : bool :=
  match e with
  | ClickIncrement => true
  | _ => false
  end.

(** The number of Increment clicks among the events. *)
Definition clicks (events : list Event) : nat :=
  length (List.filter isClick events).

End AppPage.

(* ===================================================================== *)
(** ** A platform to run the server on examples                           *)
(* ===================================================================== *)

Module Plain.

Import Http Express.

(** Paths match literally: a route matches its method and its path, a
    mount matches its path and what lies below it, and the handler below a
    mount sees the rest of the url. *)
Definition plainMatch (p : Pattern) (method url : string) : option string :=
  match p with
  | Always => Some url
  | Mount path =>
      if String.eqb url path then Some "/"
      else if String.prefix (path +:+ "/") url
           then Some (String.substring (String.length path)
                        (String.length url - String.length path) url)
           else None
  | Route m path =>
      if String.eqb method m && String.eqb url path then Some url else None
  end.

(** Literal matching, and third-party middleware that passes every
    request on untouched. *)
Definition plainPlatform : Platform := {|
  matchLayer := plainMatch;
  helmet := fun _ => Forward None [];
  cors := fun _ _ => Forward None [];
  compression := fun _ => Forward None [];
  express_json := fun _ => Forward None [];
  express_urlencoded := fun _ _ => Forward None []
|}.

Definition request (method url : string) : Request :=
  {| method := method; url := url; headers := []; rawBody := ""; body := None |}.

(** The first character of [s] after the blanks of JSON (space, tab, line
    feed, carriage return). *)
Fixpoint firstchar (s : string) : option ascii :=
  match s with
  | String c rest =>
      if (JS.code c =? 32) || (JS.code c =? 9) || (JS.code c =? 10) || (JS.code c =? 13)
      then firstchar rest
      else Some c
  | EmptyString => None
  end.

(** The request declares a JSON body. *)
Definition declaresJson (req : Request) : bool :=
  existsb (fun h => String.eqb (fst h) "content-type"
                    && String.eqb (snd h) "application/json") (headers req).

(** What the parser's error prints; the text stands for the stack of the
    parser's [SyntaxError]. *)
Definition parseFailure : HttpError :=
  {| errStatus := Some 400;
     errStack := "SyntaxError: Unexpected token in JSON at position 0" |}.

(** A platform with the two ways the third-party middleware of app.ts
    deals with a request on its own.  cors, called without
    [preflightContinue], answers every OPTIONS request itself with status
    204 and an empty body.  The JSON parser, strict by default, refuses
    the body of a request that declares JSON when the body is not empty
    and its first character after the blanks is neither a brace nor a
    bracket: it passes on an error with status 400.  Everything else
    passes untouched, as on the plain platform: the headers the libraries
    set and the bodies they decode are left out, so the platform stands
    for the libraries on the requests of the examples only. *)
Definition refusingPlatform : Platform := {|
  matchLayer := plainMatch;
  helmet := fun _ => Forward None [];
  cors := fun _ req =>
    if String.eqb (method req) "OPTIONS"
    then Terminate {| statusCode := 204; resHeaders := []; payload := SentEmpty |}
    else Forward None [];
  compression := fun _ => Forward None [];
  express_json := fun req =>
    if declaresJson req && negb (String.eqb (rawBody req) "")
    then match firstchar (rawBody req) with
         | Some c =>
             if (JS.code c =? 123) || (JS.code c =? 91) then Forward None []
             else Fail parseFailure
         | None => Fail parseFailure
         end
    else Forward None [];
  express_urlencoded := fun _ _ => Forward None []
|}.

(** POST /health with a body that is not JSON, declared as JSON. *)
Definition malformedPost : Request :=
  {| method := "POST"; url := "/health";
     headers := [("content-type", "application/json"); ("content-length", "8")];
     rawBody := "not json"; body := None |}.

(** 2026-11-01T18:33:13.123Z, a second and a half after the start. *)
Definition someWorld : World :=
  {| clock := 1793557993123; uptimeNanos := 1500000000; console := [] |}.

End Plain.

(* ===================================================================== *)
(** ** More built-ins: [String.prototype.includes], [String(number)]      *)
(* ===================================================================== *)

Module JSText.

Import JS.

(** [hay.includes(needle)]: [needle] occurs in [hay] at some position. *)
Fixpoint includes (hay needle : string) : bool :=
  if String.prefix needle hay then true
  else match hay with
       | String _ rest => includes rest needle
       | EmptyString => false
       end.

(** The decimal digits of [n >= 0], most significant first; [fuel] bounds
    their number. *)
Fixpoint digitsOf (fuel : nat) (n : Z) : list Z :=
  match fuel with
  | O => []
  | S fuel' => if n <? 10 then [n] else digitsOf fuel' (n / 10) ++ [n mod 10]
  end.

Definition decimalDigits (n : Z) : list Z :=
  digitsOf (S (Z.to_nat (Z.log2 n))) n.

(** [String(n)] for a safe integer [n]: its decimal digits, after a minus
    sign when it is negative. *)
Definition integerToString (n : Z) : string :=
  if n <? 0 then String "-" (digitString (decimalDigits (- n)))
  else digitString (decimalDigits n).

(** [c] is the decimal whose Number value is the double [x]. *)
Definition isValue (x : Z) (c : Z) : bool :=
  match toNumber c with
  | Num v => v =? x
  | _ => false
  end.

(** The decimal with the fewest significant digits whose Number value is
    the double [x > 0], the nearest to [x] when two have that many digits
    (ECMA-262, Number::toString, step 5); [k] is the number of digits
    tried, at most 17. *)
Fixpoint shortestDecimal (fuel : nat) (k : Z) (x : Z) : Z :=
  match fuel with
  | O => x
  | S fuel' =>
      let p := 10 ^ (Z.of_nat (length (decimalDigits x)) - k) in
      let lo := x / p * p in
      let hi := lo + p in
      match isValue x lo, isValue x hi with
      | true, true => if x - lo <? hi - x then lo
                      else if hi - x <? x - lo then hi
                      else if Z.even (x / p) then lo else hi
      | true, false => lo
      | false, true => hi
      | false, false => shortestDecimal fuel' (k + 1) x
      end
  end.

Fixpoint dropTrailingZeros (ds : list Z) : list Z :=
  match ds with
  | [] => []
  | d :: rest =>
      match dropTrailingZeros rest with
      | [] => if d =? 0 then [] else [d]
      | rest' => d :: rest'
      end
  end.

(** [String(x)] for a double [x >= 0] with an integer value: the digits
    of a safe integer; beyond, the shortest decimal, written in full
    below 10^21 and with an exponent from there on. *)
Definition positiveToString (x : Z) : string :=
  if x <? 2 ^ 53 then digitString (decimalDigits x)
  else
    let ds := decimalDigits (shortestDecimal 17 1 x) in
    let n := Z.of_nat (length ds) in
    if n <=? 21 then digitString ds
    else
      match dropTrailingZeros ds with
      | [] => digitString ds
      | [d] => digitString [d] +:+ "e+" +:+ digitString (decimalDigits (n - 1))
      | d :: rest =>
          digitString [d] +:+ "." +:+ digitString rest +:+ "e+"
          +:+ digitString (decimalDigits (n - 1))
      end.

(** [String(x)] for a number as [parseInt] returns it. *)
Definition numberToString (x : number) : string :=
  match x with
  | NaN => "NaN"
  | PosInfinity => "Infinity"
  | NegInfinity => "-Infinity"
  | Num n => if n <? 0 then String "-" (positiveToString (- n)) else positiveToString n
  end.

Fixpoint spaces (n : nat) : string :=
  match n with
  | O => EmptyString
  | S n' => String " " (spaces n')
  end.

(** [s.padEnd(n)]: [s] followed by spaces up to the length [n]. *)
Definition padEnd (n : nat) (s : string) : string :=
  s +:+ spaces (n - String.length s).

(** Every character of [s] is white space. *)
Fixpoint allWhiteSpace (s : string) : bool :=
  match s with
  | String c rest => isWhiteSpace c && allWhiteSpace rest
  | EmptyString => true
  end.

End JSText.

(* ===================================================================== *)
(** ** server/src/config/config.ts: the .env file                         *)
(* ===================================================================== *)

Module Dotenv.

(** [dotenvConfig({ path })], called before any variable is read;
    [parsed] holds the variables of the .env file.  dotenv sets the
    variables [process.env] does not have and leaves the ones it has, also
    the empty ones (no [override] option is passed). *)
Definition dotenvConfig (parsed processEnv : gmap string string) : gmap string string :=
  processEnv ∪ parsed.

(** The configuration of a process started with [processEnv] beside a
    .env file that holds [parsed]. *)
Definition loadedConfig (parsed processEnv : gmap string string) : Config.ServerConfig :=
  Config.serverConfig (dotenvConfig parsed processEnv).

End Dotenv.

(* ===================================================================== *)
(** ** server/src/index.ts: startup                                       *)
(* ===================================================================== *)

Module Lifecycle.

Import JS JSText Http Index.

(** [httpServer.listen] is a method of the runtime's server object, and
    the tests replace it, by [() => httpServer] and by a function that
    calls the callback it is given and returns the server. *)
Inductive ListenImpl : Type :=
| NodeListen
| MockListen
| MockListenCalling.

(** The process as index.ts uses it: the console and the server object,
    [process.argv], which [listen] the server has, the ports [listen] was
    called with, and the listeners [process.on] registered, oldest first,
    each paired with the signal name its arrow function hands to
    [gracefulShutdown]. *)
Record Node : Type := {
  process : Process;
  argv : list string;
  listenImpl : ListenImpl;
  listenCalls : list number;
  signalListeners : list (string * string)
}.

(** How a call ends: it returns a value, or it raises. *)
Inductive Outcome (A : Type) : Type :=
| Returns (value : A) (n : Node)
| Raises (code : string) (n : Node).

Arguments Returns {A} value n.
Arguments Raises {A} code n.

Definition setProcess (p : Process) (n : Node) : Node :=
  {| process := p; argv := argv n; listenImpl := listenImpl n;
     listenCalls := listenCalls n; signalListeners := signalListeners n |}.

Definition setListening (b : bool) (n : Node) : Node :=
  {| process :=
       {| world := world (process n);
          httpServer :=
            {| listening := b; onClose := onClose (httpServer (process n));
               closeImpl := closeImpl (httpServer (process n));
               closeCalls := closeCalls (httpServer (process n)) |} |};
     argv := argv n; listenImpl := listenImpl n;
     listenCalls := listenCalls n; signalListeners := signalListeners n |}.

Definition recordListen (port : number) (n : Node) : Node :=
  {| process := process n; argv := argv n; listenImpl := listenImpl n;
     listenCalls := listenCalls n ++ [port]; signalListeners := signalListeners n |}.

Definition legalPort (port : number) : bool :=
  match port with
  | Num p => (0 <=? p) && (p <=? 65535)
  | _ => false
  end.

(** [const PORT = config.server.port] and
    [const NODE_ENV = config.server.nodeEnv], read once when the module
    loads. *)
Definition PORT (processEnv : gmap string string) : number :=
  Config.port (Config.server (Config.config processEnv)).

Definition NODE_ENV (processEnv : gmap string string) : string :=
  Config.nodeEnv (Config.server (Config.config processEnv)).

(** The lines of the startup banner that do not vary.  The frame is drawn
    with characters above 255, held here as their UTF-8 bytes. *)
Definition frameTop : string :=
  "╔═══════════════════════════════════════════════════════════════╗".
Definition frameTitle : string :=
  "║                      EXPRESS SERVER                           ║".
Definition frameRule : string :=
  "╠═══════════════════════════════════════════════════════════════╣".
Definition frameStatus : string :=
  "║  Status:      ONLINE                                          ║".
Definition frameBottom : string :=
  "╚═══════════════════════════════════════════════════════════════╝".
Definition frameBar : string := "║".

(** The template literal of the startup banner. *)
Definition banner (nodeEnv : string) (port : number) : string :=
  newline +:+ frameTop +:+ newline
  +:+ frameTitle +:+ newline
  +:+ frameRule +:+ newline
  +:+ frameStatus +:+ newline
  +:+ frameBar +:+ "  Environment: " +:+ padEnd 48 nodeEnv +:+ frameBar +:+ newline
  +:+ frameBar +:+ "  Port:        " +:+ padEnd 48 (numberToString port)
  +:+ frameBar +:+ newline
  +:+ frameBar +:+ "  URL:         "
  +:+ padEnd 48 ("http://localhost:" +:+ numberToString port) +:+ frameBar +:+ newline
  +:+ frameBottom +:+ newline +:+ "    ".

(** The callback [startServer] hands to [listen], an arrow function over
    the constants of the module: [() => { console.info(banner) }]. *)
Inductive StartCallback : Type :=
| PrintBanner (nodeEnv : string) (port : number).

Definition callStart (cb : StartCallback) (p : Process) : Process :=
  match cb with
  | PrintBanner nodeEnv port =>
      {| world := consoleCall "info" (banner nodeEnv port) (world p);
         httpServer := httpServer p |}
  end.

(** [httpServer.listen(port, callback)].  Node's [net.Server.listen]
    raises ERR_SERVER_ALREADY_LISTEN on a server that listens and
    ERR_SOCKET_BAD_PORT for a port outside 0-65535; otherwise the server
    listens, and the runtime keeps [callback] for the 'listening' event,
    which it emits once the port is bound ([emitListening]): the callbacks
    the runtime holds are its own state and no part of [Node].  The first
    mock returns at once; the second calls [callback] and returns. *)
Definition listen (port : number) (callback : StartCallback) (n : Node) : Outcome unit :=
  match listenImpl n with
  | MockListen => Returns tt (recordListen port n)
  | MockListenCalling =>
      Returns tt (setProcess (callStart callback (process n)) (recordListen port n))
  | NodeListen =>
      if listening (httpServer (process n)) then Raises "ERR_SERVER_ALREADY_LISTEN" n
      else if legalPort port then Returns tt (setListening true (recordListen port n))
      else Raises "ERR_SOCKET_BAD_PORT" n
  end.


(** The banners [k] returning calls of [startServer] log at once: only a
    [listen] that calls the callback itself logs them. *)
Definition bannersOf (impl : ListenImpl) (processEnv : gmap string string) (k : nat)
    : list (string * string) :=
  match impl with
  | MockListenCalling => repeat ("info", banner (NODE_ENV processEnv) (PORT processEnv)) k
  | _ => []
  end.

(** [process.on(signal, () => gracefulShutdown(name))]. *)
Definition processOn (signal name : string) (n : Node) : Node :=
  {| process := process n; argv := argv n; listenImpl := listenImpl n;
     listenCalls := listenCalls n;
     signalListeners := signalListeners n ++ [(signal, name)] |}.

(** The callback of [startServer]. *)
Definition startCallback (processEnv : gmap string string) : StartCallback :=
  PrintBanner (NODE_ENV processEnv) (PORT processEnv).

(** [export function startServer()]. *)
Definition startServer (processEnv : gmap string string) (n : Node) : Outcome unit :=
  match listen (PORT processEnv) (startCallback processEnv) n with
  | Raises code n' => Raises code n'
  | Returns _ n1 =>
      let n2 := processOn "SIGTERM" "SIGTERM" n1 in
      let n3 := processOn "SIGINT" "SIGINT" n2 in
      Returns tt n3
  end.

(** [export function isRunningAsMain()]:
    [process.argv[1]?.includes("index") ?? false]. *)
Definition isRunningAsMain (n : Node) : bool :=
  match argv n !! 1%nat with
  | Some script => includes script "index"
  | None => false
  end.

(** [export function initIfMain()]. *)
Definition initIfMain (processEnv : gmap string string) (n : Node) : Outcome bool :=
  if isRunningAsMain n then
    match startServer processEnv n with
    | Returns _ n' => Returns true n'
    | Raises code n' => Raises code n'
    end
  else Returns false n.

(** [startServer()] called [k] times in a row, stopping at the first call
    that raises. *)
Fixpoint startTimes (k : nat) (processEnv : gmap string string) (n : Node) : Outcome unit :=
  match k with
  | O => Returns tt n
  | S k' =>
      match startServer processEnv n with
      | Returns _ n' => startTimes k' processEnv n'
      | Raises code n' => Raises code n'
      end
  end.

(** The signal names the listeners registered for [signal] hand to
    [gracefulShutdown], in registration order. *)
Definition listenersFor (signal : string) (n : Node) : list string :=
  map snd (List.filter (fun l => String.eqb (fst l) signal) (signalListeners n)).

(** The runtime delivers [signal]: the listeners registered for it run in
    registration order. *)
Definition deliver (signal : string) (n : Node) : Node :=
  fold_left (fun m name => setProcess (gracefulShutdown name (process m)) m)
    (listenersFor signal n) n.

(** A process whose module has just been loaded: nothing logged, the
    server created and not listening, no listener. *)
Definition loaded (script : string) (limpl : ListenImpl) (cimpl : CloseImpl) : Node :=
  {| process :=
       {| world := {| clock := 0; uptimeNanos := 0; console := [] |};
          httpServer := {| listening := false; onClose := []; closeImpl := cimpl;
                           closeCalls := 0 |} |};
     argv := ["/usr/bin/node"; script];
     listenImpl := limpl; listenCalls := []; signalListeners := [] |}.

End Lifecycle.

(* ===================================================================== *)
(** ** server/src/app.ts: requests one after the other                    *)
(* ===================================================================== *)

Module Serving.

Import Http Express.

(** The line [requestLogger] writes:
    [`[${timestamp}] ${req.method} ${req.url}`]. *)
Definition logLine (t : Z) (method url : string) : string :=
  "[" +:+ JSDate.toISOString t +:+ "] " +:+ method +:+ " " +:+ url.

(** A request and the readings of the clock and of the uptime when it
    arrives. *)
Record Arrival : Type := {
  at_ : Z;
  upFor : N;
  request : Request
}.

Definition arrive (a : Arrival) (w : World) : World :=
  {| clock := at_ a; uptimeNanos := upFor a; console := console w |}.

(** The application answers the arrivals one after the other, each
    within one reading of the clock. *)
Fixpoint serve `{Platform} (app : Application) (arrivals : list Arrival) (w : World)
    : list Response * World :=
  match arrivals with
  | [] => ([], w)
  | a :: rest =>
      let '(_, (res, w')) := handleRequest app (request a) (arrive a w) in
      let '(ress, w'') := serve app rest w' in
      (res :: ress, w'')
  end.

(** The world a handler leaves behind, whether it passes the request on,
    ends the response or fails. *)
Definition worldAfter (out : Outcome) : World :=
  match out with
  | Next _ _ w => w
  | End _ w => w
  | Error _ _ w => w
  end.

(** The console call [requestLogger] makes for an arrival. *)
Definition logEntry (a : Arrival) : string * string :=
  ("info", logLine (at_ a) (method (request a)) (url (request a))).

(** The request gets as far as the request logger: helmet, cors and
    compression pass it on. *)
Definition reachesLogger `{Platform} (processEnv : gmap string string)
    (req : Request) : bool :=
  match helmet req with
  | Forward b1 _ =>
      match cors {| origin := Config.clientUrl (Config.server (Config.config processEnv));
                    credentials := true |} (setBody b1 req) with
      | Forward b2 _ =>
          match compression (setBody b2 (setBody b1 req)) with
          | Forward _ _ => true
          | _ => false
          end
      | _ => false
      end
  | _ => false
  end.

(** The error of the first stage that fails, when the stages before it
    pass the request on. *)
Fixpoint firstFailure (stages : list Stage) (req : Request) : option HttpError :=
  match stages with
  | [] => None
  | st :: rest =>
      match st req with
      | Forward b _ => firstFailure rest (setBody b req)
      | Terminate _ => None
      | Fail err => Some err
      end
  end.

(** The error, if any, with which the third-party middleware of app.ts
    fails on a request. *)
Definition failure `{Platform} (processEnv : gmap string string)
    (req : Request) : option HttpError :=
  firstFailure
    [ helmet;
      cors {| origin := Config.clientUrl (Config.server (Config.config processEnv));
              credentials := true |};
      compression;
      express_json;
      express_urlencoded {| extended := true |} ]
    req.

(** What the framework prints for a request whose middleware fails. *)
Definition errorEntries `{Platform} (processEnv : gmap string string)
    (req : Request) : list (string * string) :=
  match failure processEnv req with
  | Some err =>
      if String.eqb (envSetting (App.createApp processEnv)) "test" then []
      else [("error", errStack err)]
  | None => []
  end.

(** The console calls made while an arrival is answered. *)
Definition entries `{Platform} (processEnv : gmap string string)
    (a : Arrival) : list (string * string) :=
  (if reachesLogger processEnv (request a) then [logEntry a] else [])
  ++ errorEntries processEnv (request a).

Definition isInfo (entry : string * string) : bool := String.eqb (fst entry) "info".

End Serving.

(* ===================================================================== *)
(** ** client/src/pages/AppPage/AppPage.tsx: the status line              *)
(* ===================================================================== *)

Module AppPageStatus.

Import Http AppPage.

(** The message the last outcome of the fetch among [events] leaves in the
    state, if an outcome has arrived. *)
Fixpoint lastOutcome (events : list Event) (seen : option (option Json))
    : option (option Json) :=
  match events with
  | [] => seen
  | e :: rest =>
      lastOutcome rest (if isClick e then seen else Some (message (step mount e)))
  end.

End AppPageStatus.

(* ===================================================================== *)
(** * Properties                                                          *)
(* ===================================================================== *)

(** ** parseInt *)

Module JSFacts.
Import JS.

Lemma append_cons c s r : String c s +:+ r = String c (s +:+ r).
Proof. reflexivity. Qed.

Lemma append_empty_r s : s +:+ "" = s.
Proof. induction s as [| c s IH]; [reflexivity |]. rewrite append_cons. now rewrite IH. Qed.

Lemma code_digitChar d : 0 <= d <= 9 -> code (digitChar d) = 48 + d.
Proof.
  intros Hd. unfold code, digitChar.
  rewrite N_ascii_embedding by lia. lia.
Qed.

Lemma radixDigit_digitChar d : 0 <= d <= 9 -> radixDigit 10 (digitChar d) = Some d.
Proof.
  intros Hd. unfold radixDigit, digitValue.
  rewrite (code_digitChar d Hd).
  replace ((48 <=? 48 + d) && (48 + d <=? 57)) with true
    by (symmetry; apply andb_true_iff; lia).
  replace (48 + d - 48) with d by lia.
  destruct (Z.ltb_spec d 10); [reflexivity | lia].
Qed.

Lemma isWhiteSpace_digitChar d : 0 <= d <= 9 -> isWhiteSpace (digitChar d) = false.
Proof.
  intros Hd. unfold isWhiteSpace. rewrite (code_digitChar d Hd).
  repeat (apply orb_false_iff; split); apply Z.eqb_neq; lia.
Qed.

Lemma radixDigits_digitString ds rest :
  Forall (fun d => 0 <= d <= 9) ds ->
  noLeadingDigit rest = true ->
  radixDigits 10 (digitString ds +:+ rest) = ds.
Proof.
  intros Hds Hrest. induction Hds as [| d ds Hd _ IH].
  - change (digitString [] +:+ rest) with rest.
    destruct rest as [| c r]; [reflexivity |].
    cbn in *. destruct (radixDigit 10 c); [discriminate | reflexivity].
  - cbn [digitString]. rewrite append_cons. cbn [radixDigits].
    rewrite (radixDigit_digitChar d Hd). now rewrite IH.
Qed.

(** A safe integer is its own Number value. *)
Lemma toNumber_safe n : safeInteger n -> toNumber n = Num n.
Proof.
  unfold safeInteger, toNumber, roundToDouble. intros Hn.
  assert (Hlog : Z.log2 (Z.abs n) - 52 <= 0).
  { destruct (Z.eq_dec (Z.abs n) 0) as [-> | Hnz]; [cbn; lia |].
    assert (Z.log2 (Z.abs n) < 53) by (apply Z.log2_lt_pow2; lia). lia. }
  cbv zeta. destruct (Z.leb_spec (Z.log2 (Z.abs n) - 52) 0); [| lia].
  assert (Hsmall : Z.abs n < 2 ^ 1024).
  { apply Z.lt_trans with (2 ^ 53); [lia |]. apply Z.pow_lt_mono_r; lia. }
  destruct (Z.leb_spec (2 ^ 1024) (Z.abs n)); [lia |].
  f_equal. rewrite Z.mul_comm. apply Z.abs_sgn.
Qed.

(** The Number value for an integer is never [NaN]. *)
Lemma toNumber_not_NaN n : toNumber n <> NaN.
Proof.
  unfold toNumber. cbv zeta.
  destruct (2 ^ 1024 <=? roundToDouble (Z.abs n)); [| discriminate].
  destruct (n <? 0); discriminate.
Qed.

(** [parseInt] in radix 10: white space, a sign, then the digits. *)
Lemma parseInt_decimal s :
  parseInt s 10 =
  match radixDigits 10 (dropSign (trimStart s)) with
  | [] => NaN
  | ds => toNumber ((match trimStart s with
                | String c _ => if code c =? 45 then -1 else 1
                | EmptyString => 1
                end) * mathInt 10 ds)
  end.
Proof. reflexivity. Qed.

Lemma radixDigits_nil s : radixDigits 10 s = [] <-> noLeadingDigit s = true.
Proof.
  destruct s as [| c r]; cbn; [tauto |].
  destruct (radixDigit 10 c); split; congruence.
Qed.

(** [parseInt] yields [NaN] exactly when no integer starts the string. *)
Lemma parseInt_NaN_iff s : parseInt s 10 = NaN <-> noLeadingInteger s = true.
Proof.
  rewrite parseInt_decimal. unfold noLeadingInteger.
  rewrite <- radixDigits_nil.
  destruct (radixDigits 10 (dropSign (trimStart s))) as [| d ds] eqn:Hds.
  - tauto.
  - split; [intros Hp; now apply toNumber_not_NaN in Hp | discriminate].
Qed.

(** A string that starts with an integer parses to the Number value for
    that integer, whatever follows the digits. *)
Lemma parseInt_integer_prefix sg ds rest :
  ds <> [] ->
  Forall (fun d => 0 <= d <= 9) ds ->
  noLeadingDigit rest = true ->
  parseInt (signText sg +:+ digitString ds +:+ rest) 10
  = toNumber (signValue sg * mathInt 10 ds).
Proof.
  intros Hne Hds Hrest.
  destruct ds as [| d ds']; [congruence |].
  pose proof (Forall_inv Hds) as Hd. cbn beta in Hd.
  assert (Hbody : radixDigits 10 (digitString (d :: ds') +:+ rest) = d :: ds')
    by now apply radixDigits_digitString.
  assert (Htrim : trimStart (digitString (d :: ds') +:+ rest)
                  = digitString (d :: ds') +:+ rest).
  { cbn [digitString]. rewrite append_cons. cbn [trimStart].
    now rewrite (isWhiteSpace_digitChar d Hd). }
  assert (Hsign : dropSign (digitString (d :: ds') +:+ rest)
                  = digitString (d :: ds') +:+ rest).
  { cbn [digitString]. rewrite append_cons. cbn [dropSign].
    rewrite (code_digitChar d Hd).
    destruct (Z.eqb_spec (48 + d) 43); [lia |].
    destruct (Z.eqb_spec (48 + d) 45); [lia | reflexivity]. }
  rewrite parseInt_decimal.
  destruct sg.
  - change (signText NoSign +:+ ?x) with x.
    rewrite Htrim, Hsign, Hbody.
    cbn [digitString]. rewrite append_cons. rewrite (code_digitChar d Hd).
    destruct (Z.eqb_spec (48 + d) 45); [lia | reflexivity].
  - change (trimStart (signText PlusSign +:+ ?x)) with (String "+" x).
    change (dropSign (String "+" ?x)) with x.
    rewrite Hbody. reflexivity.
  - change (trimStart (signText MinusSign +:+ ?x)) with (String "-" x).
    change (dropSign (String "-" ?x)) with x.
    rewrite Hbody. reflexivity.
Qed.

Lemma radixDigit_not_whiteSpace c d : radixDigit 10 c = Some d -> isWhiteSpace c = false.
Proof.
  unfold radixDigit, digitValue, isWhiteSpace.
  repeat match goal with
         | |- context [?a <=? ?b] => destruct (Z.leb_spec a b)
         end; cbn [andb];
    try discriminate;
    try (destruct (Z.ltb_spec (code c - 48) 10); [| discriminate]);
    try (destruct (Z.ltb_spec (code c - 87) 10); [| discriminate]);
    try (destruct (Z.ltb_spec (code c - 55) 10); [| discriminate]);
    intros _; repeat (apply orb_false_iff; split); apply Z.eqb_neq; lia.
Qed.

(** A numeric string is one [parseInt] reads. *)
Lemma numericString_parses s :
  numericString s = true -> parseInt s 10 <> NaN.
Proof.
  unfold numericString. intros Hnum.
  assert (Hlead : noLeadingInteger s = false).
  { unfold noLeadingInteger.
    destruct s as [| c r]; [discriminate |].
    cbn [dropSign] in Hnum. cbn [trimStart].
    destruct ((code c =? 43) || (code c =? 45)) eqn:Hsign.
    - assert (isWhiteSpace c = false) as ->.
      { unfold isWhiteSpace. apply orb_true_iff in Hsign.
        repeat (apply orb_false_iff; split); apply Z.eqb_neq;
          destruct Hsign as [Hs | Hs]; apply Z.eqb_eq in Hs; lia. }
      cbn [dropSign]. rewrite Hsign.
      destruct r as [| c' r']; [discriminate |].
      cbn [allDecimalDigits] in Hnum. cbn [noLeadingDigit].
      destruct (radixDigit 10 c'); [reflexivity | discriminate].
    - cbn [allDecimalDigits] in Hnum.
      destruct (radixDigit 10 c) as [d |] eqn:Hd; [| discriminate].
      rewrite (radixDigit_not_whiteSpace c d Hd).
      cbn [dropSign]. rewrite Hsign. cbn [noLeadingDigit]. now rewrite Hd. }
  intros Hp. apply parseInt_NaN_iff in Hp. congruence.
Qed.

(** [parseInt] on the usual samples. *)
Example parseInt_samples :
  parseInt "4000" 10 = Num 4000
  /\ parseInt "  42px" 10 = Num 42
  /\ parseInt "-17" 10 = Num (-17)
  /\ parseInt "+8" 10 = Num 8
  /\ parseInt "1e3" 10 = Num 1
  /\ parseInt "0x1f" 10 = Num 0
  /\ parseInt "0x1f" 16 = Num 31
  /\ parseInt "ff" 16 = Num 255
  /\ parseInt "" 10 = NaN
  /\ parseInt "-" 10 = NaN
  /\ parseInt "not-a-number" 10 = NaN
  /\ parseInt "12" 1 = NaN
  /\ parseInt "9007199254740993" 10 = Num 9007199254740992
  /\ parseInt "-9007199254740995" 10 = Num (-9007199254740996).
Proof. repeat split; vm_compute; reflexivity. Qed.

End JSFacts.
(** ** Configuration resolution *)

Module ConfigFacts.
Import JS JSFacts Config.

Lemma envNumber_absent processEnv key d :
  processEnv !! key = None -> envNumber processEnv key d = d.
Proof. intros H. unfold envNumber. now rewrite H. Qed.

Lemma envNumber_parsed processEnv key d s n :
  processEnv !! key = Some s -> parseInt s 10 = Num n ->
  envNumber processEnv key d = Num n.
Proof. intros H Hp. unfold envNumber. rewrite H. cbn zeta. now rewrite Hp. Qed.

Lemma envNumber_number processEnv key d s :
  processEnv !! key = Some s -> parseInt s 10 <> NaN ->
  envNumber processEnv key d = parseInt s 10.
Proof.
  intros H Hp. unfold envNumber. rewrite H. cbn zeta.
  destruct (parseInt s 10); [congruence | reflexivity ..].
Qed.

Lemma envNumber_not_NaN processEnv key d :
  d <> NaN -> envNumber processEnv key d <> NaN.
Proof.
  intros Hd. unfold envNumber.
  destruct (processEnv !! key) as [s |]; [| exact Hd].
  cbn zeta. destruct (parseInt s 10); cbn [isNaN]; [exact Hd | discriminate ..].
Qed.

Lemma envNumber_NaN processEnv key d s :
  processEnv !! key = Some s -> parseInt s 10 = NaN ->
  envNumber processEnv key d = d.
Proof. intros H Hp. unfold envNumber. rewrite H. cbn zeta. now rewrite Hp. Qed.

Lemma env_present processEnv key d c v :
  processEnv !! key = Some (String c v) -> env processEnv key d = String c v.
Proof. intros H. unfold env. now rewrite H. Qed.

Lemma env_empty processEnv key d :
  processEnv !! key = Some "" -> env processEnv key d = d.
Proof. intros H. unfold env. now rewrite H. Qed.

Lemma env_absent processEnv key d :
  processEnv !! key = None -> env processEnv key d = d.
Proof. intros H. unfold env. now rewrite H. Qed.

(** C6, as the code has it.  Resolution of PORT is a total function that
    never yields [NaN].  When PORT holds a string that [parseInt] reads as
    a base-10 integer (every numeric string is one), the port is
    [parseInt] of the string: the Number value for the integer written,
    which is that integer when it is a safe integer.  When PORT holds a
    string with no integer at its start, the empty string, or is absent,
    the port is the default 3000. *)
Theorem port_resolution (processEnv : gmap string string) :
  (forall s, processEnv !! "PORT" = Some s -> parseInt s 10 <> NaN ->
     port (serverConfig processEnv) = parseInt s 10)
  /\ (forall s, processEnv !! "PORT" = Some s -> numericString s = true ->
     parseInt s 10 <> NaN /\ port (serverConfig processEnv) = parseInt s 10)
  /\ (forall sg ds,
       ds <> [] ->
       Forall (fun d => 0 <= d <= 9) ds ->
       processEnv !! "PORT" = Some (signText sg +:+ digitString ds) ->
       port (serverConfig processEnv) = toNumber (signValue sg * mathInt 10 ds)
       /\ (safeInteger (signValue sg * mathInt 10 ds) ->
           port (serverConfig processEnv) = Num (signValue sg * mathInt 10 ds)))
  /\ (forall s, processEnv !! "PORT" = Some s -> noLeadingInteger s = true ->
     port (serverConfig processEnv) = Num 3000)
  /\ (processEnv !! "PORT" = Some "" -> port (serverConfig processEnv) = Num 3000)
  /\ (processEnv !! "PORT" = None -> port (serverConfig processEnv) = Num 3000)
  /\ port (serverConfig processEnv) <> NaN.
Proof.
  cbn [serverConfig port].
  split; [| split; [| split; [| split; [| split; [| split]]]]].
  - intros s Hs Hp. exact (envNumber_number _ _ _ _ Hs Hp).
  - intros s Hs Hnum. pose proof (numericString_parses s Hnum) as Hp.
    split; [exact Hp |]. exact (envNumber_number _ _ _ _ Hs Hp).
  - intros sg ds Hne Hds Hs.
    assert (Hp : parseInt (signText sg +:+ digitString ds) 10
                 = toNumber (signValue sg * mathInt 10 ds)).
    { rewrite <- (parseInt_integer_prefix sg ds "" Hne Hds eq_refl).
      now rewrite append_empty_r. }
    assert (Hport : envNumber processEnv "PORT" (Num 3000)
                    = toNumber (signValue sg * mathInt 10 ds)).
    { rewrite <- Hp. apply (envNumber_number _ _ _ _ Hs).
      rewrite Hp. apply toNumber_not_NaN. }
    split; [exact Hport |].
    intros Hsafe. rewrite Hport. now apply toNumber_safe.
  - intros s Hs Hn. apply (envNumber_NaN _ _ _ s Hs). now apply parseInt_NaN_iff.
  - intros Hs. now apply (envNumber_NaN _ _ _ "" Hs).
  - apply envNumber_absent.
  - apply envNumber_not_NaN. discriminate.
Qed.

(** The tests' settings of PORT: "4000" gives 4000, "not-a-number" 3000. *)
Example port_of_tests :
  port (serverConfig {["PORT" := "4000"]}) = Num 4000
  /\ port (serverConfig {["PORT" := "not-a-number"]}) = Num 3000
  /\ port (serverConfig ∅) = Num 3000
  /\ port (serverConfig {["PORT" := "9007199254740993"]}) = Num 9007199254740992.
Proof.
  pose proof (port_resolution {["PORT" := "4000"]}) as (_ & _ & H1 & _).
  pose proof (port_resolution {["PORT" := "not-a-number"]}) as (_ & _ & _ & H2 & _).
  pose proof (port_resolution ∅) as (_ & _ & _ & _ & _ & H3 & _).
  pose proof (port_resolution {["PORT" := "9007199254740993"]}) as (H4 & _).
  split; [| split; [| split]].
  - apply (H1 NoSign [4; 0; 0; 0]).
    + discriminate.
    + repeat constructor; lia.
    + reflexivity.
    + unfold safeInteger. vm_compute. split; reflexivity.
  - apply (H2 "not-a-number"); reflexivity.
  - apply H3. reflexivity.
  - rewrite (H4 "9007199254740993" eq_refl); [vm_compute; reflexivity |].
    vm_compute. discriminate.
Defined.

(** PORT set to the non-numeric string "80abc" does not resolve to the
    default 3000: it resolves to 80. *)
Lemma port_80abc_not_default :
  numericString "80abc" = false
  /\ port (serverConfig {["PORT" := "80abc"]}) = Num 80
  /\ ~ (numericString "80abc" = false ->
        port (serverConfig {["PORT" := "80abc"]}) = Num 3000).
Proof.
  split; [reflexivity |]. split; [vm_compute; reflexivity |].
  intros Hclaim. specialize (Hclaim eq_refl).
  vm_compute in Hclaim. discriminate.
Qed.

(** C7.  [isDev] holds exactly when the resolved [nodeEnv] is
    "development" and [isProd] exactly when it is "production"; they never
    hold together, and both are false for any other value.  When NODE_ENV
    is absent (or empty) the default "development" applies and [isDev]
    holds. *)
Theorem isDev_isProd_flags (processEnv : gmap string string) :
  (isDev (serverConfig processEnv) = true
     <-> nodeEnv (serverConfig processEnv) = "development")
  /\ (isProd (serverConfig processEnv) = true
     <-> nodeEnv (serverConfig processEnv) = "production")
  /\ ~ (isDev (serverConfig processEnv) = true
        /\ isProd (serverConfig processEnv) = true)
  /\ (nodeEnv (serverConfig processEnv) <> "development" ->
      nodeEnv (serverConfig processEnv) <> "production" ->
      isDev (serverConfig processEnv) = false
      /\ isProd (serverConfig processEnv) = false)
  /\ (forall v, processEnv !! "NODE_ENV" = Some v -> v <> "" ->
      nodeEnv (serverConfig processEnv) = v
      /\ isDev (serverConfig processEnv) = String.eqb v "development"
      /\ isProd (serverConfig processEnv) = String.eqb v "production")
  /\ (processEnv !! "NODE_ENV" = None \/ processEnv !! "NODE_ENV" = Some "" ->
      nodeEnv (serverConfig processEnv) = "development"
      /\ isDev (serverConfig processEnv) = true
      /\ isProd (serverConfig processEnv) = false).
Proof.
  cbn [serverConfig isDev isProd nodeEnv].
  assert (Hdev : forall e, String.eqb e "development" = true <-> e = "development")
    by (intros e; apply String.eqb_eq).
  assert (Hprod : forall e, String.eqb e "production" = true <-> e = "production")
    by (intros e; apply String.eqb_eq).
  split; [apply Hdev |]. split; [apply Hprod |].
  split.
  { intros [H1 H2]. apply Hdev in H1. apply Hprod in H2. congruence. }
  split.
  { intros N1 N2. split; apply not_true_is_false.
    - now rewrite Hdev.
    - now rewrite Hprod. }
  split.
  - intros v Hv Hne. destruct v as [| c v]; [congruence |].
    now rewrite (env_present _ _ _ _ _ Hv).
  - intros [Hv | Hv].
    + now rewrite (env_absent _ _ _ Hv).
    + now rewrite (env_empty _ _ _ Hv).
Qed.

(** NODE_ENV "production" sets [isProd] alone, "test" sets neither, and
    an unset NODE_ENV sets [isDev]. *)
Example flags_of_node_env :
  (isDev (serverConfig {["NODE_ENV" := "production"]}) = false
   /\ isProd (serverConfig {["NODE_ENV" := "production"]}) = true)
  /\ (isDev (serverConfig {["NODE_ENV" := "test"]}) = false
      /\ isProd (serverConfig {["NODE_ENV" := "test"]}) = false)
  /\ (isDev (serverConfig ∅) = true /\ isProd (serverConfig ∅) = false).
Proof.
  pose proof (isDev_isProd_flags {["NODE_ENV" := "production"]}) as (_ & _ & _ & _ & H1 & _).
  pose proof (isDev_isProd_flags {["NODE_ENV" := "test"]}) as (_ & _ & _ & _ & H2 & _).
  pose proof (isDev_isProd_flags ∅) as (_ & _ & _ & _ & _ & H3).
  split; [| split].
  - destruct (H1 "production") as (_ & Hd & Hp); [reflexivity | discriminate |].
    now rewrite Hd, Hp.
  - destruct (H2 "test") as (_ & Hd & Hp); [reflexivity | discriminate |].
    now rewrite Hd, Hp.
  - destruct H3 as (_ & Hd & Hp); [left; reflexivity |]. now rewrite Hd, Hp.
Defined.

(** C8.  [env] returns the environment value verbatim when it is present
    and non-empty, and the default when it is absent or the empty string;
    it is a total function. *)
Theorem env_resolution (processEnv : gmap string string) (key defaultValue : string) :
  (forall v, processEnv !! key = Some v -> v <> "" ->
     env processEnv key defaultValue = v)
  /\ (processEnv !! key = Some "" -> env processEnv key defaultValue = defaultValue)
  /\ (processEnv !! key = None -> env processEnv key defaultValue = defaultValue).
Proof.
  split; [| split].
  - intros v Hv Hne. destruct v as [| c v]; [congruence |].
    exact (env_present _ _ _ _ _ Hv).
  - apply env_empty.
  - apply env_absent.
Qed.

(** The tests' settings: LOG_LEVEL "debug" is kept, an unset LOG_LEVEL and
    an empty one give "info". *)
Example env_of_tests :
  logLevel (serverConfig {["LOG_LEVEL" := "debug"]}) = "debug"
  /\ logLevel (serverConfig ∅) = "info"
  /\ logLevel (serverConfig {["LOG_LEVEL" := ""]}) = "info".
Proof.
  pose proof (env_resolution {["LOG_LEVEL" := "debug"]} "LOG_LEVEL" "info") as (H1 & _).
  pose proof (env_resolution ∅ "LOG_LEVEL" "info") as (_ & _ & H2).
  pose proof (env_resolution {["LOG_LEVEL" := ""]} "LOG_LEVEL" "info") as (_ & H3 & _).
  split; [| split].
  - apply H1; [reflexivity | discriminate].
  - apply H2. reflexivity.
  - apply H3. reflexivity.
Defined.

(** C10.  [envNumber] has the prefix semantics of [parseInt]: when the
    value starts with a base-10 integer (an optional sign and at least one
    digit) followed by anything that is not a digit, the result is the
    Number value for that integer (the integer itself when it is a safe
    integer) and not the default; whenever [parseInt] yields a number the
    result is that number, so the default is returned only on [NaN]. *)
Theorem envNumber_prefix_semantics (processEnv : gmap string string)
    (key : string) (defaultValue : number) :
  (forall sg ds rest,
     ds <> [] ->
     Forall (fun d => 0 <= d <= 9) ds ->
     noLeadingDigit rest = true ->
     processEnv !! key = Some (signText sg +:+ digitString ds +:+ rest) ->
     envNumber processEnv key defaultValue = toNumber (signValue sg * mathInt 10 ds)
     /\ envNumber processEnv key defaultValue
        = parseInt (signText sg +:+ digitString ds) 10
     /\ (safeInteger (signValue sg * mathInt 10 ds) ->
         envNumber processEnv key defaultValue = Num (signValue sg * mathInt 10 ds)))
  /\ (forall s,
       processEnv !! key = Some s -> parseInt s 10 <> NaN ->
       envNumber processEnv key defaultValue = parseInt s 10)
  /\ (forall s,
       processEnv !! key = Some s -> parseInt s 10 = NaN ->
       envNumber processEnv key defaultValue = defaultValue)
  /\ (forall s,
       processEnv !! key = Some s ->
       envNumber processEnv key defaultValue = defaultValue ->
       parseInt s 10 = NaN \/ parseInt s 10 = defaultValue).
Proof.
  split; [| split; [| split]].
  - intros sg ds rest Hne Hds Hrest Hkey.
    pose proof (parseInt_integer_prefix sg ds rest Hne Hds Hrest) as Hp.
    assert (Hres : envNumber processEnv key defaultValue
                   = toNumber (signValue sg * mathInt 10 ds)).
    { rewrite <- Hp. apply (envNumber_number _ _ _ _ Hkey).
      rewrite Hp. apply toNumber_not_NaN. }
    split; [exact Hres |]. split.
    + rewrite Hres, <- (parseInt_integer_prefix sg ds "" Hne Hds eq_refl).
      now rewrite append_empty_r.
    + intros Hsafe. rewrite Hres. now apply toNumber_safe.
  - intros s Hkey Hp. exact (envNumber_number _ _ _ _ Hkey Hp).
  - intros s Hkey Hp. exact (envNumber_NaN _ _ _ _ Hkey Hp).
  - intros s Hkey. unfold envNumber. rewrite Hkey. cbn zeta.
    destruct (parseInt s 10); cbn [isNaN]; intros Hd; [now left | now right ..].
Qed.

(** PORT set to "80abc" resolves to 80 and PORT set to "3.9" to 3. *)
Lemma envNumber_prefix_examples :
  envNumber {["PORT" := "80abc"]} "PORT" (Num 3000) = Num 80
  /\ envNumber {["PORT" := "3.9"]} "PORT" (Num 3000) = Num 3.
Proof.
  split.
  - apply (proj1 (envNumber_prefix_semantics {["PORT" := "80abc"]} "PORT" (Num 3000))
             NoSign [8; 0] "abc").
    + discriminate.
    + repeat constructor; lia.
    + reflexivity.
    + reflexivity.
    + unfold safeInteger. vm_compute. split; reflexivity.
  - apply (proj1 (envNumber_prefix_semantics {["PORT" := "3.9"]} "PORT" (Num 3000))
             NoSign [3] ".9").
    + discriminate.
    + repeat constructor; lia.
    + reflexivity.
    + reflexivity.
    + unfold safeInteger. vm_compute. split; reflexivity.
Defined.

(** The other settings of the configuration tests. *)
Example config_of_tests :
  requestTimeout (serverConfig ∅) = Num 30000
  /\ requestTimeout (serverConfig {["REQUEST_TIMEOUT" := "5000"]}) = Num 5000
  /\ clientUrl (serverConfig ∅) = "http://localhost:5173"
  /\ clientUrl (serverConfig {["VITE_DEV_PORT" := "5200"]}) = "http://localhost:5200"
  /\ nodeEnv (serverConfig {["NODE_ENV" := "production"]}) = "production".
Proof. repeat split; vm_compute; reflexivity. Qed.

End ConfigFacts.
(** ** Dates *)

Module JSDateFacts.
Import JS JSFacts JSDate.

Lemma DayFromYear_succ y : DayFromYear (y + 1) = DayFromYear y + DaysInYear y.
Proof.
  unfold DayFromYear, DaysInYear, isLeapYear.
  destruct (Z.eqb_spec (y mod 4) 0); cbn [negb];
    [destruct (Z.eqb_spec (y mod 100) 0); cbn [negb];
      [destruct (Z.eqb_spec (y mod 400) 0); cbn [negb] |] |];
    Z.div_mod_to_equations; lia.
Qed.

Lemma DayFromYear_mono y1 y2 : y1 < y2 -> DayFromYear y1 < DayFromYear y2.
Proof. unfold DayFromYear. intros H. Z.div_mod_to_equations. lia. Qed.

Lemma YearFromDay_spec d :
  DayFromYear (YearFromDay d) <= d < DayFromYear (YearFromDay d + 1).
Proof.
  unfold YearFromDay.
  set (y := 1970 + 400 * d / 146097).
  assert (Hlo : DayFromYear (y - 1) <= d).
  { unfold DayFromYear, y. Z.div_mod_to_equations. lia. }
  assert (Hhi : d < DayFromYear (y + 2)).
  { unfold DayFromYear, y. Z.div_mod_to_equations. lia. }
  destruct (Z.ltb_spec d (DayFromYear y)).
  - replace (y - 1 + 1) with y by lia. lia.
  - destruct (Z.leb_spec (DayFromYear (y + 1)) d).
    + replace (y + 1 + 1) with (y + 2) by lia. lia.
    + lia.
Qed.

(** [YearFromDay d] is the largest year starting on or before day [d]. *)
Lemma YearFromDay_largest d y : DayFromYear y <= d -> y <= YearFromDay d.
Proof.
  intros Hy. destruct (Z.le_gt_cases y (YearFromDay d)) as [| Hgt]; [assumption |].
  pose proof (YearFromDay_spec d) as [_ Hd].
  destruct (Z.eq_dec y (YearFromDay d + 1)) as [-> | Hne]; [lia |].
  pose proof (DayFromYear_mono (YearFromDay d + 1) y ltac:(lia)). lia.
Qed.

Lemma DayWithinYear_range t :
  0 <= DayWithinYear t < DaysInYear (YearFromTime t).
Proof.
  unfold DayWithinYear, YearFromTime.
  pose proof (YearFromDay_spec (Day t)) as H.
  rewrite DayFromYear_succ in H. lia.
Qed.

Lemma InLeapYear_DaysInYear t : DaysInYear (YearFromTime t) = 365 + InLeapYear t.
Proof. unfold DaysInYear, InLeapYear. now destruct (isLeapYear _). Qed.

Lemma InLeapYear_cases t : InLeapYear t = 0 \/ InLeapYear t = 1.
Proof. unfold InLeapYear. destruct (isLeapYear _); auto. Qed.

Lemma monthOfDay_spec dwy leap :
  (leap = 0 \/ leap = 1) -> 0 <= dwy < 365 + leap ->
  let m := monthOfDay dwy leap in
  0 <= m <= 11 /\ monthStart m leap <= dwy < monthStart (m + 1) leap.
Proof.
  intros Hl Hd. unfold monthOfDay.
  repeat match goal with
         | |- context [?a <? ?b] => destruct (Z.ltb_spec a b)
         end;
    cbv zeta;
    match goal with
    | |- context [monthStart (?a + 1) _] =>
        let v := eval vm_compute in (a + 1) in change (a + 1) with v
    end;
    cbv [monthStart]; lia.
Qed.

Lemma MonthFromTime_range t : 0 <= MonthFromTime t <= 11.
Proof.
  pose proof (DayWithinYear_range t) as H. rewrite InLeapYear_DaysInYear in H.
  exact (proj1 (monthOfDay_spec _ _ (InLeapYear_cases t) H)).
Qed.

Lemma DateFromTime_range t :
  1 <= DateFromTime t <= DaysInMonth (YearFromTime t) (MonthFromTime t).
Proof.
  pose proof (DayWithinYear_range t) as H. rewrite InLeapYear_DaysInYear in H.
  pose proof (proj2 (monthOfDay_spec _ _ (InLeapYear_cases t) H)) as Hm.
  unfold DateFromTime, DaysInMonth, MonthFromTime.
  fold (InLeapYear t). lia.
Qed.

Lemma MakeDay_fields t :
  MakeDay (YearFromTime t) (MonthFromTime t) (DateFromTime t) = Day t.
Proof.
  unfold MakeDay, DateFromTime. fold (InLeapYear t). unfold DayWithinYear. lia.
Qed.

Lemma time_fields_range t :
  0 <= HourFromTime t <= 23 /\ 0 <= MinFromTime t <= 59 /\
  0 <= SecFromTime t <= 59 /\ 0 <= msFromTime t <= 999.
Proof.
  unfold HourFromTime, MinFromTime, SecFromTime, msFromTime,
    msPerHour, msPerMinute, msPerSecond.
  Z.div_mod_to_equations. lia.
Qed.

Lemma MakeTime_fields t :
  MakeTime (HourFromTime t) (MinFromTime t) (SecFromTime t) (msFromTime t)
  = TimeWithinDay t.
Proof.
  unfold MakeTime, HourFromTime, MinFromTime, SecFromTime, msFromTime,
    TimeWithinDay, msPerHour, msPerMinute, msPerSecond, msPerDay.
  Z.div_mod_to_equations. lia.
Qed.

Lemma MakeDate_fields t : MakeDate (Day t) (TimeWithinDay t) = t.
Proof.
  unfold MakeDate, Day, TimeWithinDay, msPerDay. Z.div_mod_to_equations. lia.
Qed.

Lemma YearFromTime_range t :
  validTime t -> -271821 <= YearFromTime t <= 275760.
Proof.
  unfold validTime, YearFromTime. intros Ht.
  pose proof (YearFromDay_spec (Day t)) as [Hlo Hhi].
  assert (Hd : -100000000 <= Day t <= 100000000).
  { unfold Day, msPerDay. Z.div_mod_to_equations. lia. }
  revert Hlo Hhi. generalize (YearFromDay (Day t)) as y. intros y.
  unfold DayFromYear. intros Hlo Hhi. Z.div_mod_to_equations. lia.
Qed.
Lemma readDigits_padDigits k n acc rest :
  0 <= n ->
  readDigits k acc (padDigits k n +:+ rest)
  = Some (acc * 10 ^ Z.of_nat k + n mod 10 ^ Z.of_nat k, rest).
Proof.
  intros Hn. revert acc. induction k as [| k IH]; intros acc.
  - cbn. rewrite Z.mod_1_r. f_equal. f_equal. lia.
  - cbn [padDigits]. rewrite append_cons. cbn [readDigits].
    assert (Hd : 0 <= (n / 10 ^ Z.of_nat k) mod 10 <= 9)
      by (pose proof (Z.mod_pos_bound (n / 10 ^ Z.of_nat k) 10); lia).
    rewrite (radixDigit_digitChar _ Hd), IH.
    f_equal. f_equal.
    rewrite Nat2Z.inj_succ, Z.pow_succ_r by lia.
    assert (Hp : 0 < 10 ^ Z.of_nat k) by (apply Z.pow_pos_nonneg; lia).
    rewrite (Z.mul_comm 10 (10 ^ Z.of_nat k)).
    rewrite (Z.rem_mul_r n (10 ^ Z.of_nat k) 10) by lia.
    lia.
Qed.

Lemma readDigits_padDigits_small k n rest :
  0 <= n < 10 ^ Z.of_nat k ->
  readDigits k 0 (padDigits k n +:+ rest) = Some (n, rest).
Proof.
  intros Hn. rewrite readDigits_padDigits by lia.
  rewrite Z.mod_small by lia. reflexivity.
Qed.

Lemma padDigits_head_digit k n rest :
  0 <= n ->
  match padDigits (S k) n +:+ rest with
  | String c _ => 48 <= code c <= 57
  | EmptyString => False
  end.
Proof.
  intros Hn. cbn [padDigits]. rewrite append_cons.
  assert (Hd : 0 <= (n / 10 ^ Z.of_nat k) mod 10 <= 9)
    by (pose proof (Z.mod_pos_bound (n / 10 ^ Z.of_nat k) 10); lia).
  rewrite (code_digitChar _ Hd). lia.
Qed.

Lemma readYear_formatYear y rest :
  -999999 <= y <= 999999 ->
  readYear (formatYear y +:+ rest) = Some (y, rest).
Proof.
  intros Hy. unfold formatYear.
  destruct (Z.leb_spec 0 y) as [H0 | H0]; cbn [andb].
  - destruct (Z.leb_spec y 9999) as [H1 | H1].
    + pose proof (padDigits_head_digit 3 y rest H0) as Hc.
      unfold readYear.
      destruct (padDigits 4 y +:+ rest) as [| c r] eqn:E; [contradiction |].
      assert (Ascii.eqb c "+" = false) as ->.
      { apply Ascii.eqb_neq. intros ->. change (code "+") with 43 in Hc. lia. }
      assert (Ascii.eqb c "-" = false) as ->.
      { apply Ascii.eqb_neq. intros ->. change (code "-") with 45 in Hc. lia. }
      rewrite <- E. apply readDigits_padDigits_small. lia.
    + destruct (Z.ltb_spec y 0); [lia |].
      rewrite append_cons. cbn [readYear]. rewrite Ascii.eqb_refl.
      apply readDigits_padDigits_small. lia.
  - destruct (Z.ltb_spec y 0); [| lia].
    rewrite append_cons. cbn [readYear].
    change (Ascii.eqb "-" "+") with false. cbn iota. rewrite Ascii.eqb_refl.
    rewrite readDigits_padDigits_small by lia.
    destruct (Z.eqb_spec (- y) 0); [lia |].
    f_equal. f_equal. lia.
Qed.

Lemma expect_head c rest : expect c (String c rest) = Some rest.
Proof. cbn. now rewrite Ascii.eqb_refl. Qed.

(** The string [toISOString] writes for a valid time value parses back to
    that time value. *)
Lemma parseISO_toISOString t :
  validTime t -> parseISO (toISOString t) = Some t.
Proof.
  intros Ht.
  pose proof (YearFromTime_range t Ht) as Hy.
  pose proof (MonthFromTime_range t) as Hm.
  pose proof (DateFromTime_range t) as Hd.
  pose proof (time_fields_range t) as (Hh & Hmi & Hs & Hms).
  assert (Hdim : DaysInMonth (YearFromTime t) (MonthFromTime t) <= 31).
  { unfold DaysInMonth. generalize Hm.
    generalize (MonthFromTime t) as m. intros m Hm'.
    assert (m = 0 \/ m = 1 \/ m = 2 \/ m = 3 \/ m = 4 \/ m = 5 \/ m = 6 \/
            m = 7 \/ m = 8 \/ m = 9 \/ m = 10 \/ m = 11) as Hc by lia.
    destruct (isLeapYear (YearFromTime t));
      repeat (destruct Hc as [-> | Hc]); try subst m; vm_compute; discriminate. }
  unfold parseISO, toISOString.
  rewrite readYear_formatYear by lia. cbn [mbind option_bind].
  rewrite expect_head. cbn [mbind option_bind].
  rewrite readDigits_padDigits_small by (cbn; lia). cbn [mbind option_bind].
  rewrite expect_head. cbn [mbind option_bind].
  rewrite readDigits_padDigits_small by (cbn; lia). cbn [mbind option_bind].
  rewrite expect_head. cbn [mbind option_bind].
  rewrite readDigits_padDigits_small by (cbn; lia). cbn [mbind option_bind].
  rewrite expect_head. cbn [mbind option_bind].
  rewrite readDigits_padDigits_small by (cbn; lia). cbn [mbind option_bind].
  rewrite expect_head. cbn [mbind option_bind].
  rewrite readDigits_padDigits_small by (cbn; lia). cbn [mbind option_bind].
  rewrite expect_head. cbn [mbind option_bind].
  rewrite readDigits_padDigits_small by (cbn; lia). cbn [mbind option_bind].
  rewrite expect_head. cbn [mbind option_bind].
  replace (MonthFromTime t + 1 - 1) with (MonthFromTime t) by lia.
  rewrite String.eqb_refl.
  repeat match goal with
         | |- context [?a <=? ?b] =>
             destruct (Z.leb_spec a b); [| lia]
         end.
  cbn [andb].
  rewrite MakeDay_fields, MakeTime_fields, MakeDate_fields. reflexivity.
Qed.

(** [toISOString] at the epoch, on a leap day, before year 0 and at the
    two ends of the range of time values. *)
Example toISOString_samples :
  toISOString 0 = "1970-01-01T00:00:00.000Z"
  /\ toISOString 951782400000 = "2000-02-29T00:00:00.000Z"
  /\ toISOString (-1) = "1969-12-31T23:59:59.999Z"
  /\ toISOString (-62167219200001) = "-000001-12-31T23:59:59.999Z"
  /\ toISOString 8640000000000000 = "+275760-09-13T00:00:00.000Z"
  /\ toISOString (-8640000000000000) = "-271821-04-20T00:00:00.000Z"
  /\ parseISO "2024-02-30T00:00:00.000Z" = None
  /\ parseISO "2024-02-29T12:30:00.000Z" = Some 1709209800000.
Proof. repeat split; reflexivity. Qed.

End JSDateFacts.
(** ** The request pipeline *)

Module AppFacts.
Import JS JSDate JSDateFacts Config Http Express Middleware Health App Serving.

Section WithPlatform.
Context `{Platform}.

Lemma dispatch_app l1 l2 req res w :
  dispatch (l1 ++ l2) req res w =
  match dispatch l1 req res w with
  | (ran1, Next req' res' w') =>
      let '(ran2, out) := dispatch l2 req' res' w' in (ran1 ++ ran2, out)
  | (ran1, End res' w') => (ran1, End res' w')
  | (ran1, Error err res' w') => (ran1, Error err res' w')
  end.
Proof.
  revert req res w. induction l1 as [| l l1 IH]; intros req res w.
  - cbn. now destruct (dispatch l2 req res w).
  - cbn [app dispatch].
    destruct (layerMatch (pattern l) req) as [req1 |]; [| apply IH].
    destruct (handle l req1 res w) as [req2 res2 w2 | res2 w2 | err res2 w2];
      [| reflexivity ..].
    rewrite IH.
    destruct (dispatch l1 (setUrl (url req) req2) res2 w2)
      as [ran1 [r3 s3 w3 | s3 w3 | err s3 w3]]; [| reflexivity ..].
    now destruct (dispatch l2 r3 s3 w3).
Qed.

Lemma createApp_names processEnv :
  map name (stack (createApp processEnv))
  = middlewareOrder ++ [HealthRoute; ApiHealthRouter].
Proof. reflexivity. Qed.

Lemma createApp_split processEnv :
  stack (createApp processEnv)
  = middlewareLayers (createApp processEnv) ++ routeLayers (createApp processEnv).
Proof. reflexivity. Qed.

Lemma setUrl_same req : setUrl (url req) req = req.
Proof. now destruct req. Qed.

Lemma setUrl_setBody u b req : setUrl u (setBody b req) = setBody b (setUrl u req).
Proof. now destruct b. Qed.

Lemma method_setBody b req : method (setBody b req) = method req.
Proof. now destruct b. Qed.

Lemma url_setBody b req : url (setBody b req) = url req.
Proof. now destruct b. Qed.

Lemma benign_thirdParty n st :
  benign {| name := n; pattern := Always; handle := thirdParty st |}.
Proof.
  split; [reflexivity |]. intros req res w. cbn [handle]. unfold thirdParty.
  destruct (st req) as [b hs | r | err]; cbn; [| exact I ..].
  rewrite method_setBody, url_setBody. tauto.
Qed.

Lemma benign_requestLogger :
  benign {| name := RequestLogger; pattern := Always; handle := requestLogger |}.
Proof.
  split; [reflexivity |]. intros req res w. cbn. tauto.
Qed.

(** Layers that see every request run in registration order until one
    ends the response. *)
Lemma dispatch_benign layers req res w :
  Forall benign layers ->
  fst (dispatch layers req res w) `prefix_of` map name layers
  /\ match snd (dispatch layers req res w) with
     | Next _ _ _ => fst (dispatch layers req res w) = map name layers
     | End _ _ => True
     | Error _ _ _ => True
     end
  /\ preserved req res w (snd (dispatch layers req res w)).
Proof.
  intros Hall. revert req res w.
  induction Hall as [| l layers [Hpat Hl] _ IH]; intros req res w.
  - cbn. repeat split; reflexivity.
  - cbn [dispatch map]. rewrite Hpat. cbn [layerMatch].
    specialize (Hl req res w).
    destruct (handle l req res w) as [req1 res1 w1 | res1 w1 | err res1 w1];
      cbn [fst snd].
    + destruct Hl as (Hm & Hu & Hs & Hp & Hc & Hn).
      specialize (IH (setUrl (url req) req1) res1 w1).
      destruct (dispatch layers (setUrl (url req) req1) res1 w1) as [ran out].
      cbn [fst snd] in *. destruct IH as (IH1 & IH2 & IH3).
      split; [now apply prefix_cons |].
      split.
      * destruct out; [now f_equal | exact I ..].
      * destruct out as [req2 res2 w2 | |]; [| exact I ..].
        cbn in IH3 |- *. destruct IH3 as (? & ? & ? & ? & ? & ?).
        repeat split; congruence.
    + split; [apply prefix_cons, prefix_nil |]. split; exact I.
    + split; [apply prefix_cons, prefix_nil |]. split; exact I.
Qed.

Lemma setUrl_kept u req : url req = u -> setUrl u req = req.
Proof. intros <-. now destruct req. Qed.

(** Layers that see every request and keep its url run as the chain of
    their handlers. *)
Lemma dispatch_pipeline processEnv layers req res w :
  Forall benign layers ->
  Forall (fun l => handle l = stageHandler processEnv (name l)) layers ->
  dispatch layers req res w = pipeline processEnv (map name layers) req res w.
Proof.
  intros Hall. revert req res w.
  induction Hall as [| l layers [Hpat Hl] _ IH]; intros req res w Hh; [reflexivity |].
  pose proof (Forall_inv Hh) as Hhead. pose proof (Forall_inv_tail Hh) as Htail.
  cbn beta in Hhead.
  cbn [dispatch map pipeline]. rewrite Hpat. cbn [layerMatch]. rewrite <- Hhead.
  specialize (Hl req res w).
  destruct (handle l req res w) as [req1 res1 w1 | res1 w1 | err res1 w1];
    [| reflexivity ..].
  destruct Hl as (_ & Hu & _). rewrite (setUrl_kept _ _ Hu).
  now rewrite (IH req1 res1 w1 Htail).
Qed.

Lemma middlewareLayers_benign processEnv :
  Forall benign (middlewareLayers (createApp processEnv)).
Proof.
  cbv [middlewareLayers createApp use get useAt register express stack
       List.app List.filter isMiddleware pattern].
  repeat (constructor; [first [apply benign_thirdParty | apply benign_requestLogger] |]).
  constructor.
Qed.

Lemma middlewareLayers_names processEnv :
  map name (middlewareLayers (createApp processEnv)) = middlewareOrder.
Proof. reflexivity. Qed.

Lemma setUrl_setUrl u req : setUrl (url req) (setUrl u req) = req.
Proof. now destruct req. Qed.

(** Route dispatch: GET /health first, then the router at /api/health. *)
Lemma routes_dispatch processEnv req res w :
  dispatch (routeLayers (createApp processEnv)) req res w =
  match matchLayer (Route "GET" "/health") (method req) (url req) with
  | Some _ => ([HealthRoute], healthHandler req res w)
  | None =>
      match matchLayer (Mount "/api/health") (method req) (url req) with
      | Some u =>
          match matchLayer (Route "GET" "/") (method req) u with
          | Some _ => ([ApiHealthRouter], apiHealthHandler req res w)
          | None => ([ApiHealthRouter], Next req res w)
          end
      | None => ([], Next req res w)
      end
  end.
Proof.
  cbv [routeLayers createApp use get useAt register express stack
       List.app List.filter isMiddleware pattern negb].
  cbn [dispatch layerMatch pattern handle name].
  destruct (matchLayer (Route "GET" "/health") (method req) (url req)) as [u0 |];
    [reflexivity |].
  destruct (matchLayer (Mount "/api/health") (method req) (url req)) as [u |];
    [| reflexivity].
  unfold healthRouter, router. cbn [dispatch layerMatch pattern handle name].
  cbn [setUrl method url].
  destruct (matchLayer (Route "GET" "/") (method req) u) as [u' |]; cbn [snd].
  - reflexivity.
  - now rewrite setUrl_setUrl.
Qed.

(** One request through the application: the middleware layers, then
    the routes, then the default handler. *)
Lemma handleRequest_createApp processEnv req w :
  handleRequest (createApp processEnv) req w =
  match dispatch (middlewareLayers (createApp processEnv)) req freshResponse w with
  | (ran1, Next req' res' w') =>
      match dispatch (routeLayers (createApp processEnv)) req' res' w' with
      | (ran2, Next _ res'' w'') => (ran1 ++ ran2, (finalhandler res'', w''))
      | (ran2, End res'' w'') => (ran1 ++ ran2, (res'', w''))
      | (ran2, Error err res'' w'') =>
          (ran1 ++ ran2,
           finalhandlerError (envSetting (createApp processEnv)) err res'' w'')
      end
  | (ran1, End res' w') => (ran1, (res', w'))
  | (ran1, Error err res' w') =>
      (ran1, finalhandlerError (envSetting (createApp processEnv)) err res' w')
  end.
Proof.
  unfold handleRequest. rewrite createApp_split, dispatch_app.
  destruct (dispatch (middlewareLayers (createApp processEnv)) req freshResponse w)
    as [ran1 [req' res' w' | res' w' | err res' w']]; [| reflexivity ..].
  now destruct (dispatch (routeLayers (createApp processEnv)) req' res' w')
    as [ran2 [? ? ? | ? ? | ? ? ?]].
Qed.

Lemma reachesRoutes_inv processEnv req w :
  reachesRoutes (createApp processEnv) req w ->
  exists req' res' w',
    dispatch (middlewareLayers (createApp processEnv)) req freshResponse w
    = (middlewareOrder, Next req' res' w')
    /\ method req' = method req /\ url req' = url req
    /\ statusCode res' = 200
    /\ clock w' = clock w /\ uptimeNanos w' = uptimeNanos w.
Proof.
  intros (req' & res' & w' & Hout).
  pose proof (dispatch_benign _ req freshResponse w (middlewareLayers_benign processEnv))
    as (_ & Hall & Hpres).
  rewrite Hout in Hall, Hpres. rewrite middlewareLayers_names in Hall.
  destruct Hpres as (Hm & Hu & Hs & _ & Hc & Hn).
  exists req', res', w'. repeat split; try assumption.
  destruct (dispatch (middlewareLayers (createApp processEnv)) req freshResponse w)
    as [ran out]. cbn [fst snd] in *. congruence.
Qed.


Lemma createApp_handlers processEnv :
  Forall (fun l => handle l = stageHandler processEnv (name l))
    (stack (createApp processEnv)).
Proof.
  cbv [createApp use get useAt register express stack List.app].
  repeat (constructor; [reflexivity |]). constructor.
Qed.

Lemma middlewareLayers_handlers processEnv :
  Forall (fun l => handle l = stageHandler processEnv (name l))
    (middlewareLayers (createApp processEnv)).
Proof.
  cbv [middlewareLayers createApp use get useAt register express stack
       List.app List.filter isMiddleware pattern].
  repeat (constructor; [reflexivity |]). constructor.
Qed.

(** The chain of the six stages, spelled out. *)
Lemma pipeline_cascade processEnv req res w :
  pipeline processEnv middlewareOrder req res w =
  match helmet req with
  | Terminate r => ([Helmet], End r w)
  | Fail e => ([Helmet], Error e res w)
  | Forward b1 h1 =>
      match cors {| origin := clientUrl (server (config processEnv)); credentials := true |}
              (setBody b1 req) with
      | Terminate r => ([Helmet; Cors], End r w)
      | Fail e => ([Helmet; Cors], Error e (addHeaders h1 res) w)
      | Forward b2 h2 =>
          match compression (setBody b2 (setBody b1 req)) with
          | Terminate r => ([Helmet; Cors; Compression], End r w)
          | Fail e =>
              ([Helmet; Cors; Compression],
               Error e (addHeaders h2 (addHeaders h1 res)) w)
          | Forward b3 h3 =>
              let r3 := setBody b3 (setBody b2 (setBody b1 req)) in
              let s3 := addHeaders h3 (addHeaders h2 (addHeaders h1 res)) in
              let w1 := consoleCall "info" (logLine (clock w) (method req) (url req)) w in
              match express_json r3 with
              | Terminate r =>
                  ([Helmet; Cors; Compression; RequestLogger; JsonParser], End r w1)
              | Fail e =>
                  ([Helmet; Cors; Compression; RequestLogger; JsonParser], Error e s3 w1)
              | Forward b4 h4 =>
                  match express_urlencoded {| extended := true |} (setBody b4 r3) with
                  | Terminate r => (middlewareOrder, End r w1)
                  | Fail e => (middlewareOrder, Error e (addHeaders h4 s3) w1)
                  | Forward b5 h5 =>
                      (middlewareOrder,
                       Next (setBody b5 (setBody b4 r3)) (addHeaders h5 (addHeaders h4 s3)) w1)
                  end
              end
          end
      end
  end.
Proof.
  unfold middlewareOrder. cbn [pipeline stageHandler].
  unfold thirdParty, requestLogger.
  destruct (helmet req) as [b1 h1 | r | e]; [| reflexivity ..].
  destruct (cors _ (setBody b1 req)) as [b2 h2 | r | e]; [| reflexivity ..].
  destruct (compression (setBody b2 (setBody b1 req))) as [b3 h3 | r | e];
    [| reflexivity ..].
  cbv zeta. rewrite !method_setBody, !url_setBody. unfold logLine.
  destruct (express_json _) as [b4 h4 | r | e]; [| reflexivity ..].
  destruct (express_urlencoded _ _) as [b5 h5 | r | e]; reflexivity.
Qed.
(** The middleware part of the application, stage by stage. *)
Lemma middleware_dispatch processEnv req res w :
  dispatch (middlewareLayers (createApp processEnv)) req res w
  = pipeline processEnv middlewareOrder req res w.
Proof.
  rewrite <- (middlewareLayers_names processEnv).
  apply dispatch_pipeline; [apply middlewareLayers_benign | apply middlewareLayers_handlers].
Qed.

(** C2.  The stages are registered once each, in the fixed order: helmet,
    cors (with the client url as origin, and credentials), compression,
    request logging, the JSON and the URL-encoded parser, then the routes;
    the handler registered at each place is the one the order names.  For
    every request the middleware part of the application is the chain of
    these six handlers, each run once on the request as the one before
    left it, a handler that ends the response or fails stopping the
    chain.  So the stages that run do so once each and in that order, a
    stage running only after all the stages listed before it; when no
    stage ends the response before route dispatch, each of the six runs
    exactly once and the routes come last. *)
Theorem middleware_order (processEnv : gmap string string) :
  map name (stack (createApp processEnv))
  = [Helmet; Cors; Compression; RequestLogger; JsonParser; UrlencodedParser;
     HealthRoute; ApiHealthRouter]
  /\ NoDup (map name (stack (createApp processEnv)))
  /\ map name (middlewareLayers (createApp processEnv))
     = [Helmet; Cors; Compression; RequestLogger; JsonParser; UrlencodedParser]
  /\ Forall (fun l => handle l = stageHandler processEnv (name l))
       (stack (createApp processEnv))
  /\ (forall req res w,
        dispatch (middlewareLayers (createApp processEnv)) req res w
        = pipeline processEnv
            [Helmet; Cors; Compression; RequestLogger; JsonParser; UrlencodedParser]
            req res w)
  /\ (forall req w,
        fst (handleRequest (createApp processEnv) req w)
        = fst (pipeline processEnv
                 [Helmet; Cors; Compression; RequestLogger; JsonParser;
                  UrlencodedParser] req freshResponse w)
          ++ match snd (pipeline processEnv
                          [Helmet; Cors; Compression; RequestLogger; JsonParser;
                           UrlencodedParser] req freshResponse w) with
             | Next req' res' w' =>
                 fst (dispatch (routeLayers (createApp processEnv)) req' res' w')
             | _ => []
             end)
  /\ forall req w,
       (fst (handleRequest (createApp processEnv) req w)
          `prefix_of` [Helmet; Cors; Compression; RequestLogger; JsonParser;
                       UrlencodedParser]
        \/ exists routes,
             fst (handleRequest (createApp processEnv) req w)
             = [Helmet; Cors; Compression; RequestLogger; JsonParser;
                UrlencodedParser] ++ routes
             /\ (routes = [] \/ routes = [HealthRoute] \/ routes = [ApiHealthRouter]))
       /\ (reachesRoutes (createApp processEnv) req w ->
           exists routes,
             fst (handleRequest (createApp processEnv) req w)
             = [Helmet; Cors; Compression; RequestLogger; JsonParser;
                UrlencodedParser] ++ routes
             /\ (routes = [] \/ routes = [HealthRoute] \/ routes = [ApiHealthRouter])).
Proof.
  pose proof (middleware_dispatch processEnv) as Hchain.
  split; [reflexivity |].
  split.
  { rewrite createApp_names. apply (bool_decide_unpack _). reflexivity. }
  split; [reflexivity |].
  split; [apply createApp_handlers |].
  split; [exact Hchain |].
  split.
  { intros req w. rewrite handleRequest_createApp.
    change [Helmet; Cors; Compression; RequestLogger; JsonParser; UrlencodedParser]
      with middlewareOrder.
    rewrite <- Hchain.
    destruct (dispatch (middlewareLayers (createApp processEnv)) req freshResponse w)
      as [ran1 [req' res' w' | res' w' | err res' w']]; cbn [fst snd].
    - now destruct (dispatch (routeLayers (createApp processEnv)) req' res' w')
        as [ran2 [? ? ? | ? ? | ? ? ?]].
    - now rewrite app_nil_r.
    - unfold finalhandlerError. cbn [fst]. now rewrite app_nil_r. }
  intros req w.
  assert (Hroutes : forall req' res' w',
            dispatch (middlewareLayers (createApp processEnv)) req freshResponse w
            = (middlewareOrder, Next req' res' w') ->
            exists routes,
              fst (handleRequest (createApp processEnv) req w) = middlewareOrder ++ routes
              /\ (routes = [] \/ routes = [HealthRoute] \/ routes = [ApiHealthRouter])).
  { intros req' res' w' Hmid.
    rewrite handleRequest_createApp, Hmid, routes_dispatch.
    destruct (matchLayer (Route "GET" "/health") (method req') (url req')).
    { exists [HealthRoute]. cbn. auto. }
    destruct (matchLayer (Mount "/api/health") (method req') (url req')) as [u |].
    - destruct (matchLayer (Route "GET" "/") (method req') u);
        exists [ApiHealthRouter]; cbn; auto.
    - exists []. cbn. auto. }
  split.
  - pose proof (dispatch_benign _ req freshResponse w (middlewareLayers_benign processEnv))
      as (Hpre & Hall & _).
    rewrite middlewareLayers_names in Hpre, Hall.
    destruct (dispatch (middlewareLayers (createApp processEnv)) req freshResponse w)
      as [ran [req' res' w' | res' w' | err res' w']] eqn:Hmid; cbn [fst snd] in *.
    + right. subst ran. exact (Hroutes req' res' w' eq_refl).
    + left. rewrite handleRequest_createApp, Hmid. exact Hpre.
    + left. rewrite handleRequest_createApp, Hmid. exact Hpre.
  - intros Hreach.
    destruct (reachesRoutes_inv _ _ _ Hreach) as (req' & res' & w' & Hmid & _).
    exact (Hroutes req' res' w' Hmid).
Qed.


(** C4.  A GET request to /api/health that reaches route dispatch is
    answered with status 200 and a JSON body whose status is "ok", whose
    message is "Server is running" and whose timestamp is the ISO-8601
    string of the clock. *)
Theorem api_health_endpoint (processEnv : gmap string string) (req : Request)
    (w : World) (u u' : string) :
  validTime (clock w) ->
  matchLayer (Route "GET" "/health") (method req) (url req) = None ->
  matchLayer (Mount "/api/health") (method req) (url req) = Some u ->
  matchLayer (Route "GET" "/") (method req) u = Some u' ->
  reachesRoutes (createApp processEnv) req w ->
  exists res w',
    snd (handleRequest (createApp processEnv) req w) = (res, w')
    /\ statusCode res = 200
    /\ payload res
       = SentJson (JObject [("status", JString "ok");
                            ("message", JString "Server is running");
                            ("timestamp", JString (toISOString (clock w)))])
    /\ parseISO (toISOString (clock w)) = Some (clock w).
Proof.
  intros Hclock Hroot Hmount Hroute Hreach.
  destruct (reachesRoutes_inv _ _ _ Hreach)
    as (req' & res' & w' & Hmid & Hm & Hu & Hs & Hc & Hn).
  rewrite handleRequest_createApp, Hmid, routes_dispatch, Hm, Hu, Hroot, Hmount, Hroute.
  unfold apiHealthHandler. cbn [snd].
  eexists _, _. split; [reflexivity |].
  split; [exact Hs |].
  split; [cbn [resJson payload]; now rewrite Hc |].
  now apply parseISO_toISOString.
Qed.

(** C5, as the code has it.  A request that matches no registered route
    (neither GET /health nor the route of the router at /api/health) is
    answered by the default handler with status 404 when the middleware
    passes it on.  When a middleware stage ends the response itself, or
    fails, no route and no 404 follow: the answer is the one of that
    stage, or the one the default handler gives for the error. *)
Theorem unmatched_is_404 (processEnv : gmap string string) (req : Request) (w : World) :
  matchesRoute req = false ->
  (reachesRoutes (createApp processEnv) req w ->
   exists res w',
     snd (handleRequest (createApp processEnv) req w) = (res, w')
     /\ statusCode res = 404
     /\ payload res = SentDefault
     /\ ~ In HealthRoute (fst (handleRequest (createApp processEnv) req w)))
  /\ (forall res' w',
        snd (dispatch (middlewareLayers (createApp processEnv)) req freshResponse w)
        = End res' w' ->
        snd (handleRequest (createApp processEnv) req w) = (res', w'))
  /\ (forall err res' w',
        snd (dispatch (middlewareLayers (createApp processEnv)) req freshResponse w)
        = Error err res' w' ->
        snd (handleRequest (createApp processEnv) req w)
        = finalhandlerError (envSetting (createApp processEnv)) err res' w'
        /\ statusCode (fst (snd (handleRequest (createApp processEnv) req w)))
           = errorStatus err res').
Proof.
  intros Hno. split; [| split].
  - intros Hreach.
    destruct (reachesRoutes_inv _ _ _ Hreach)
      as (req' & res' & w' & Hmid & Hm & Hu & Hs & Hc & Hn).
    rewrite handleRequest_createApp, Hmid, routes_dispatch, Hm, Hu.
    unfold matchesRoute in Hno.
    destruct (matchLayer (Route "GET" "/health") (method req) (url req));
      [discriminate |].
    destruct (matchLayer (Mount "/api/health") (method req) (url req)) as [u |].
    + destruct (matchLayer (Route "GET" "/") (method req) u); [discriminate |].
      cbn [fst snd]. eexists _, _. split; [reflexivity |].
      repeat split. unfold middlewareOrder. cbn. intuition discriminate.
    + cbn [fst snd]. eexists _, _. split; [reflexivity |].
      repeat split. unfold middlewareOrder. cbn. intuition discriminate.
  - intros res' w' Hend. rewrite handleRequest_createApp.
    destruct (dispatch (middlewareLayers (createApp processEnv)) req freshResponse w)
      as [ran out]. cbn [snd] in Hend. now subst out.
  - intros err res' w' Herr. rewrite handleRequest_createApp.
    destruct (dispatch (middlewareLayers (createApp processEnv)) req freshResponse w)
      as [ran out]. cbn [snd] in Herr. subst out. split; reflexivity.
Qed.

End WithPlatform.
End AppFacts.
(** ** Graceful shutdown *)

Module IndexFacts.
Import Http Index.

Lemma gracefulShutdown_closeImpl signal p :
  closeImpl (httpServer (gracefulShutdown signal p)) = closeImpl (httpServer p).
Proof.
  unfold gracefulShutdown, close. cbn.
  now destruct (closeImpl (httpServer p)) eqn:E.
Qed.

Lemma gracefulShutdown_closeCalls signal p :
  closeCalls (httpServer (gracefulShutdown signal p)) = S (closeCalls (httpServer p)).
Proof.
  unfold gracefulShutdown, close. cbn.
  now destruct (closeImpl (httpServer p)).
Qed.

Lemma gracefulShutdown_mock signal p :
  closeImpl (httpServer p) = MockClose ->
  console (world (gracefulShutdown signal p))
  = console (world p) ++ [shutdownLine signal; closedLine].
Proof.
  intros Himpl. unfold gracefulShutdown, close. cbn. rewrite Himpl. cbn.
  now rewrite <- app_assoc.
Qed.

Lemma gracefulShutdown_node signal p :
  closeImpl (httpServer p) = NodeClose ->
  console (world (gracefulShutdown signal p)) = console (world p) ++ [shutdownLine signal]
  /\ onClose (httpServer (gracefulShutdown signal p)) = onClose (httpServer p) ++ [LogClosed].
Proof.
  intros Himpl. unfold gracefulShutdown, close. cbn. rewrite Himpl. cbn. tauto.
Qed.

Lemma calls_console cbs q :
  console (world (fold_left (fun q cb => call cb q) cbs q))
  = console (world q) ++ repeat closedLine (length cbs).
Proof.
  revert q. induction cbs as [| cb cbs IH]; intros q.
  - cbn. now rewrite app_nil_r.
  - cbn [fold_left length repeat]. rewrite IH. destruct cb. cbn.
    now rewrite <- app_assoc.
Qed.

Lemma emitClose_console p :
  console (world (emitClose p))
  = console (world p) ++ repeat closedLine (length (onClose (httpServer p))).
Proof. unfold emitClose. now rewrite calls_console. Qed.

(** C1, as the code has it.  [gracefulShutdown] keeps no state and has no
    guard: every call logs the line naming its signal and calls
    [httpServer.close] with a confirmation callback of its own.  Under the
    tests' mocked [close] the confirmation follows each call at once; under
    the runtime's [close] the callbacks wait for the 'close' event, which
    then logs the confirmation once per call. *)
Theorem gracefulShutdown_each_call (p : Process) (signals : list string) :
  closeCalls (httpServer (shutdowns signals p))
  = (closeCalls (httpServer p) + length signals)%nat
  /\ (closeImpl (httpServer p) = MockClose ->
      console (world (shutdowns signals p))
      = console (world p) ++ flat_map (fun s => [shutdownLine s; closedLine]) signals)
  /\ (closeImpl (httpServer p) = NodeClose ->
      console (world (shutdowns signals p))
      = console (world p) ++ map shutdownLine signals
      /\ onClose (httpServer (shutdowns signals p))
         = onClose (httpServer p) ++ repeat LogClosed (length signals)
      /\ console (world (emitClose (shutdowns signals p)))
         = console (world p) ++ map shutdownLine signals
           ++ repeat closedLine (length (onClose (httpServer p)) + length signals)).
Proof.
  revert p. induction signals as [| s signals IH]; intros p.
  - cbn [shutdowns fold_left length flat_map map repeat].
    rewrite !Nat.add_0_r, !app_nil_r.
    split; [reflexivity |]. split; [reflexivity |].
    intros _. split; [reflexivity |]. split; [reflexivity |].
    cbn [app]. apply emitClose_console.
  - change (shutdowns (s :: signals) p) with (shutdowns signals (gracefulShutdown s p)).
    destruct (IH (gracefulShutdown s p)) as (Hcalls & Hmock & Hnode).
    rewrite gracefulShutdown_closeImpl in Hmock, Hnode.
    split; [| split].
    + rewrite Hcalls, gracefulShutdown_closeCalls. cbn [length]. lia.
    + intros Himpl. rewrite (Hmock Himpl), (gracefulShutdown_mock s p Himpl).
      cbn [flat_map]. now rewrite <- app_assoc.
    + intros Himpl. destruct (Hnode Himpl) as (Hc & Ho & He).
      destruct (gracefulShutdown_node s p Himpl) as (Hc1 & Ho1).
      split; [| split].
      * rewrite Hc, Hc1. cbn [map]. now rewrite <- app_assoc.
      * rewrite Ho, Ho1. cbn [length repeat]. now rewrite <- app_assoc.
      * rewrite He, Hc1, Ho1. cbn [map]. rewrite <- !app_assoc. cbn [app].
        rewrite length_app. cbn [length].
        replace (length (onClose (httpServer p)) + 1 + length signals)%nat
          with (length (onClose (httpServer p)) + S (length signals))%nat by lia.
        reflexivity.
Qed.

(** SIGTERM then SIGINT under the mocked [close]: four lines. *)
Example gracefulShutdown_twice_mocked :
  console (world (shutdowns ["SIGTERM"; "SIGINT"] mockedProcess))
  = [shutdownLine "SIGTERM"; closedLine; shutdownLine "SIGINT"; closedLine]
  /\ closeCalls (httpServer (shutdowns ["SIGTERM"; "SIGINT"] mockedProcess)) = 2%nat.
Proof.
  destruct (gracefulShutdown_each_call mockedProcess ["SIGTERM"; "SIGINT"])
    as (Hcalls & Hmock & _).
  split.
  - rewrite (Hmock eq_refl). reflexivity.
  - rewrite Hcalls. reflexivity.
Defined.

(** Two calls in succession are not idempotent: under the tests' mocked
    [close], and under the runtime's once the 'close' event is delivered,
    the shutdown line and the confirmation are each logged twice. *)
Lemma gracefulShutdown_twice_not_idempotent :
  ~ idempotentAt mockedProcess "SIGTERM" "SIGINT"
  /\ ~ idempotentAt listeningProcess "SIGTERM" "SIGINT"
  /\ List.filter isClosedLine
       (logged mockedProcess
          (gracefulShutdown "SIGINT" (gracefulShutdown "SIGTERM" mockedProcess)))
     = [closedLine; closedLine]
  /\ List.filter isClosedLine
       (logged listeningProcess
          (emitClose (gracefulShutdown "SIGINT" (gracefulShutdown "SIGTERM" listeningProcess))))
     = [closedLine; closedLine].
Proof.
  split; [| split; [| split]].
  - intros [_ H]. vm_compute in H. lia.
  - intros [_ H]. vm_compute in H. lia.
  - reflexivity.
  - reflexivity.
Qed.

(** The shutdown test: one call under the mocked [close] logs the line
    of its signal, then the confirmation, and calls [close] once. *)
Example gracefulShutdown_of_tests :
  console (world (gracefulShutdown "SIGTERM" mockedProcess))
  = [("log", shutdownMessage "SIGTERM"); ("log", "[Server] HTTP server closed")]
  /\ closeCalls (httpServer (gracefulShutdown "SIGTERM" mockedProcess)) = 1%nat
  /\ isShutdownLine ("log", shutdownMessage "SIGINT") = true
  /\ isShutdownLine closedLine = false.
Proof. repeat split; reflexivity. Qed.

End IndexFacts.

(** ** The counter of the interactive page *)

Module AppPageFacts.
Import Http AppPage.

Lemma count_step s e : count (step s e) = count s + (if isClick e then 1 else 0).
Proof. destruct e as [| data |]; [| destruct data |]; cbn; lia. Qed.

Lemma count_run events s :
  count (run events s) = count s + Z.of_nat (clicks events).
Proof.
  revert s. induction events as [| e events IH]; intros s.
  - cbn. lia.
  - change (run (e :: events) s) with (run events (step s e)).
    rewrite IH, count_step. unfold clicks. cbn [List.filter].
    destruct (isClick e); cbn [length]; lia.
Qed.

Lemma clicks_repeat n : clicks (repeat ClickIncrement n) = n.
Proof.
  unfold clicks. induction n as [| n IH]; [reflexivity |].
  cbn [repeat List.filter isClick length]. now rewrite IH.
Qed.

(** C9.  Within one mount the counter starts at 0, each Increment click
    adds exactly one, after [n] clicks the page shows [n] (also when the
    outcome of the health fetch arrives in between), and the counter never
    decreases. *)
Theorem counter_counts_clicks :
  counter (render mount) = 0
  /\ (forall s, counter (render (step s ClickIncrement)) = counter (render s) + 1)
  /\ (forall n : nat,
       counter (render (run (repeat ClickIncrement n) mount)) = Z.of_nat n)
  /\ (forall events,
       counter (render (run events mount)) = Z.of_nat (clicks events))
  /\ (forall s e, count s <= count (step s e))
  /\ (forall s events, count s <= count (run events s)).
Proof.
  split; [reflexivity |].
  split; [reflexivity |].
  split.
  { intros n. cbn [render counter]. rewrite count_run, clicks_repeat. cbn. lia. }
  split.
  { intros events. cbn [render counter]. rewrite count_run. cbn. lia. }
  split.
  - intros s e. rewrite count_step. destruct (isClick e); lia.
  - intros s events. rewrite count_run. lia.
Qed.

(** Three clicks, as in the tests, with the fetch resolving in between. *)
Example counter_three_clicks :
  counter (render (run (repeat ClickIncrement 3) mount)) = 3
  /\ counter (render (run [ClickIncrement;
                           FetchResolved (JObject [("message", JString "Server OK")]);
                           ClickIncrement; ClickIncrement] mount)) = 3.
Proof.
  destruct counter_counts_clicks as (_ & _ & Hn & Hev & _).
  split.
  - exact (Hn 3%nat).
  - rewrite Hev. reflexivity.
Defined.

(** The page tests: 0 and "Loading..." at mount, the fetched message once
    the fetch resolves, the fallback when it fails. *)
Example page_of_tests :
  render mount = {| counter := 0; status := JString "Loading..." |}
  /\ render (run [ClickIncrement] mount)
     = {| counter := 1; status := JString "Loading..." |}
  /\ status (render (run [FetchResolved (JObject [("status", JString "ok");
                                                  ("message", JString "Server OK")])]
                       mount)) = JString "Server OK"
  /\ status (render (run [FetchRejected] mount)) = JString "Server not connected".
Proof. repeat split; reflexivity. Qed.

End AppPageFacts.
(** ** The server on the plain platform *)

Module PlainFacts.
Import JS JSDate Http Express App Plain AppFacts.

#[local] Existing Instance plainPlatform.

Lemma plain_reachesRoutes processEnv method url :
  reachesRoutes (createApp processEnv) (request method url) someWorld.
Proof. eexists _, _, _. reflexivity. Qed.

(** GET /health on the plain platform: the six stages run, then at most
    one route. *)
Lemma middleware_order_get_health :
  exists routes,
    fst (handleRequest (createApp ∅) (request "GET" "/health") someWorld)
    = [Helmet; Cors; Compression; RequestLogger; JsonParser; UrlencodedParser]
      ++ routes
    /\ (routes = [] \/ routes = [HealthRoute] \/ routes = [ApiHealthRouter]).
Proof.
  destruct (middleware_order ∅) as (_ & _ & _ & _ & _ & _ & Hrun).
  destruct (Hrun (request "GET" "/health") someWorld) as (_ & Hreach).
  exact (Hreach (plain_reachesRoutes ∅ "GET" "/health")).
Defined.


(** GET /api/health on the plain platform. *)
Lemma api_health_endpoint_get :
  exists res w',
    snd (handleRequest (createApp ∅) (request "GET" "/api/health") someWorld) = (res, w')
    /\ statusCode res = 200
    /\ payload res
       = SentJson (JObject [("status", JString "ok");
                            ("message", JString "Server is running");
                            ("timestamp", JString "2026-11-01T18:33:13.123Z")])
    /\ parseISO "2026-11-01T18:33:13.123Z" = Some 1793557993123.
Proof.
  apply (api_health_endpoint ∅ (request "GET" "/api/health") someWorld "/" "/").
  - unfold validTime, someWorld. cbn. lia.
  - reflexivity.
  - reflexivity.
  - reflexivity.
  - apply plain_reachesRoutes.
Defined.

(** GET /does-not-exist on the plain platform. *)
Lemma unmatched_does_not_exist :
  exists res w',
    snd (handleRequest (createApp ∅) (request "GET" "/does-not-exist") someWorld)
    = (res, w')
    /\ statusCode res = 404
    /\ payload res = SentDefault
    /\ ~ In HealthRoute
         (fst (handleRequest (createApp ∅) (request "GET" "/does-not-exist") someWorld)).
Proof.
  assert (Hno : matchesRoute (request "GET" "/does-not-exist") = false) by reflexivity.
  destruct (unmatched_is_404 ∅ (request "GET" "/does-not-exist") someWorld Hno)
    as (Hdefault & _).
  apply Hdefault. apply plain_reachesRoutes.
Defined.

(** The other requests of the tests: an unknown route and a POST to
    /api/health are answered 404. *)
Example plain_other_requests :
  statusCode (fst (snd (handleRequest (createApp ∅) (request "GET" "/unknown-route") someWorld)))
  = 404
  /\ statusCode (fst (snd (handleRequest (createApp ∅) (request "POST" "/api/health") someWorld)))
     = 404.
Proof. split; reflexivity. Qed.

End PlainFacts.

(** ** Requests the middleware answers itself *)

Module RefusingFacts.
Import JS JSDate Http Express App Plain AppFacts.

#[local] Existing Instance refusingPlatform.

(** Not every request that matches no route is answered 404: POST /health
    with a malformed JSON body matches no route and is answered 400 by the
    default handler, for the error of the JSON parser; an OPTIONS request
    matches no route and is answered 204 by cors. *)
Lemma unmatched_not_always_404 :
  (matchesRoute malformedPost = false
   /\ statusCode (fst (snd (handleRequest (createApp ∅) malformedPost someWorld))) = 400)
  /\ (matchesRoute (request "OPTIONS" "/does-not-exist") = false
      /\ statusCode (fst (snd (handleRequest (createApp ∅)
                                 (request "OPTIONS" "/does-not-exist") someWorld))) = 204)
  /\ ~ (forall req w,
          matchesRoute req = false ->
          statusCode (fst (snd (handleRequest (createApp ∅) req w))) = 404).
Proof.
  assert (Hno : matchesRoute malformedPost = false) by reflexivity.
  split; [split; [exact Hno | reflexivity] |]. split; [split; reflexivity |].
  intros Hclaim. specialize (Hclaim malformedPost someWorld Hno).
  vm_compute in Hclaim. discriminate.
Qed.

End RefusingFacts.

(** ** More built-ins *)

Module JSTextFacts.
Import JS JSFacts JSText.

Lemma append_assoc s1 s2 s3 : (s1 +:+ s2) +:+ s3 = s1 +:+ s2 +:+ s3.
Proof.
  induction s1 as [| c s1 IH]; [reflexivity |].
  rewrite !append_cons. now rewrite IH.
Qed.

Lemma prefix_iff a b : String.prefix a b = true <-> exists post, b = a +:+ post.
Proof.
  revert b. induction a as [| c a IH]; intros b.
  - split; [intros _; now exists b | intros _; now destruct b].
  - destruct b as [| c' b]; cbn [String.prefix].
    + split; [discriminate | intros [post Hp]; discriminate].
    + destruct (ascii_dec c c') as [-> | Hne].
      * rewrite IH. split; intros [post Hp]; exists post.
        -- rewrite append_cons. now f_equal.
        -- rewrite append_cons in Hp. now injection Hp.
      * split; [discriminate |]. intros [post Hp].
        rewrite append_cons in Hp. injection Hp as Hc _. congruence.
Qed.

Lemma includes_unfold hay needle :
  includes hay needle =
  if String.prefix needle hay then true
  else match hay with
       | String _ rest => includes rest needle
       | EmptyString => false
       end.
Proof. now destruct hay. Qed.

(** [includes] finds exactly the substrings. *)
Lemma includes_iff hay needle :
  includes hay needle = true <-> exists pre post, hay = pre +:+ needle +:+ post.
Proof.
  split.
  - induction hay as [| c hay IH]; rewrite includes_unfold;
      destruct (String.prefix needle _) eqn:Hp.
    + intros _. apply prefix_iff in Hp as [post Hp]. now exists "", post.
    + discriminate.
    + intros _. apply prefix_iff in Hp as [post Hp]. now exists "", post.
    + intros Hin. destruct (IH Hin) as (pre & post & ->).
      exists (String c pre), post. now rewrite append_cons.
  - intros (pre & post & ->). induction pre as [| c pre IH].
    + rewrite includes_unfold.
      assert (String.prefix needle ("" +:+ needle +:+ post) = true) as ->
        by (apply prefix_iff; now exists post).
      reflexivity.
    + rewrite includes_unfold, append_cons.
      destruct (String.prefix needle _); [reflexivity | exact IH].
Qed.

Lemma mathInt_snoc ds d : mathInt 10 (ds ++ [d]) = 10 * mathInt 10 ds + d.
Proof. unfold mathInt. now rewrite fold_left_app. Qed.

Lemma digitsOf_spec f n :
  0 <= n < 2 * 2 ^ Z.of_nat f ->
  mathInt 10 (digitsOf (S f) n) = n
  /\ Forall (fun d => 0 <= d <= 9) (digitsOf (S f) n)
  /\ digitsOf (S f) n <> [].
Proof.
  revert n. induction f as [| f IH]; intros n Hn.
  - assert ((n <? 10) = true) as Hlt by (apply Z.ltb_lt; cbn in Hn; lia).
    cbn [digitsOf]. rewrite Hlt.
    split; [unfold mathInt; cbn; lia |]. split; [| discriminate].
    constructor; [cbn in Hn; lia | constructor].
  - change (digitsOf (S (S f)) n)
      with (if n <? 10 then [n] else digitsOf (S f) (n / 10) ++ [n mod 10]).
    destruct (Z.ltb_spec n 10) as [Hlt | Hge].
    + split; [unfold mathInt; cbn; lia |]. split; [| discriminate].
      constructor; [lia | constructor].
    + assert (Hpow : 0 < 2 ^ Z.of_nat f) by (apply Z.pow_pos_nonneg; lia).
      rewrite Nat2Z.inj_succ, Z.pow_succ_r in Hn by lia.
      destruct (IH (n / 10)) as (Hval & Hall & Hne).
      { Z.div_mod_to_equations. lia. }
      split; [| split].
      * rewrite mathInt_snoc, Hval. Z.div_mod_to_equations. lia.
      * apply Forall_app. split; [exact Hall |].
        constructor; [| constructor]. Z.div_mod_to_equations. lia.
      * intros Happ. now apply app_eq_nil in Happ as [_ ?].
Qed.

Lemma decimalDigits_spec n :
  0 <= n ->
  mathInt 10 (decimalDigits n) = n
  /\ Forall (fun d => 0 <= d <= 9) (decimalDigits n)
  /\ decimalDigits n <> [].
Proof.
  intros Hn. apply digitsOf_spec.
  rewrite Z2Nat.id by apply Z.log2_nonneg.
  destruct (Z.eq_dec n 0) as [-> | Hne]; [cbn; lia |].
  pose proof (Z.log2_spec n ltac:(lia)) as [_ Hhi].
  rewrite Z.pow_succ_r in Hhi by apply Z.log2_nonneg. lia.
Qed.

(** [parseInt] reads back the digits of an integer as its Number value. *)
Lemma parseInt_digits n : parseInt (integerToString n) 10 = toNumber n.
Proof.
  unfold integerToString. destruct (Z.ltb_spec n 0) as [Hneg | Hpos].
  - destruct (decimalDigits_spec (- n) ltac:(lia)) as (Hval & Hall & Hne).
    pose proof (parseInt_integer_prefix MinusSign _ "" Hne Hall eq_refl) as Hp.
    rewrite append_empty_r in Hp. change (signText MinusSign +:+ ?x) with (String "-" x) in Hp.
    rewrite Hp, Hval. cbn [signValue]. f_equal. lia.
  - destruct (decimalDigits_spec n Hpos) as (Hval & Hall & Hne).
    pose proof (parseInt_integer_prefix NoSign _ "" Hne Hall eq_refl) as Hp.
    rewrite append_empty_r in Hp. change (signText NoSign +:+ ?x) with x in Hp.
    rewrite Hp, Hval. cbn [signValue]. f_equal. lia.
Qed.

(** [parseInt] reads back what [String] writes for a safe integer. *)
Lemma parseInt_integerToString n :
  safeInteger n -> parseInt (integerToString n) 10 = Num n.
Proof. intros Hn. rewrite parseInt_digits. now apply toNumber_safe. Qed.

Lemma trimStart_allWhiteSpace ws s :
  allWhiteSpace ws = true -> trimStart (ws +:+ s) = trimStart s.
Proof.
  induction ws as [| c ws IH]; [reflexivity |].
  cbn [allWhiteSpace]. intros [Hc Hws]%andb_true_iff.
  rewrite append_cons. cbn [trimStart]. rewrite Hc. now apply IH.
Qed.

(** [parseInt] skips leading white space, in every radix. *)
Lemma parseInt_leading_whiteSpace ws s radix :
  allWhiteSpace ws = true -> parseInt (ws +:+ s) radix = parseInt s radix.
Proof.
  intros Hws. unfold parseInt. now rewrite (trimStart_allWhiteSpace ws s Hws).
Qed.

End JSTextFacts.

(** ** The configuration and the environment *)

Module ConfigMoreFacts.
Import JS JSFacts JSText JSTextFacts Config ConfigFacts Dotenv.

Lemma envNumber_integerToString processEnv key d n :
  safeInteger n ->
  envNumber (<[key := integerToString n]> processEnv) key d = Num n.
Proof.
  intros Hn. apply (envNumber_parsed _ _ _ (integerToString n)).
  - apply lookup_insert_eq.
  - now apply parseInt_integerToString.
Qed.

Lemma env_depends processEnv1 processEnv2 key d :
  processEnv1 !! key = processEnv2 !! key ->
  env processEnv1 key d = env processEnv2 key d.
Proof. intros Hk. unfold env. now rewrite Hk. Qed.

Lemma envNumber_depends processEnv1 processEnv2 key d :
  processEnv1 !! key = processEnv2 !! key ->
  envNumber processEnv1 key d = envNumber processEnv2 key d.
Proof. intros Hk. unfold envNumber. now rewrite Hk. Qed.

(** X5.  A numeric variable set to the decimal text of an integer is read back
    as that integer, whatever the default.  No range is checked: PORT
    takes 0, a negative integer and an integer above 65535 as they are.
    The integers are the safe ones, which the runtime's numbers hold
    exactly; beyond them [parseInt] rounds. *)
Theorem envNumber_round_trip (processEnv : gmap string string) (n : Z) :
  safeInteger n ->
  (forall key d, envNumber (<[key := integerToString n]> processEnv) key d = Num n)
  /\ port (serverConfig (<["PORT" := integerToString n]> processEnv)) = Num n
  /\ requestTimeout (serverConfig (<["REQUEST_TIMEOUT" := integerToString n]> processEnv))
     = Num n.
Proof.
  intros Hn. split; [| split].
  - intros key d. now apply envNumber_integerToString.
  - cbn [serverConfig port]. now apply envNumber_integerToString.
  - cbn [serverConfig requestTimeout]. now apply envNumber_integerToString.
Qed.

(** PORT=0, PORT=-1 and PORT=70000 are taken as they are. *)
Example envNumber_round_trip_ports :
  (safeInteger 0 /\ safeInteger (-1) /\ safeInteger 70000)
  /\ port (serverConfig {["PORT" := "0"]}) = Num 0
  /\ port (serverConfig {["PORT" := "-1"]}) = Num (-1)
  /\ port (serverConfig (<["PORT" := "70000"]> {["NODE_ENV" := "production"]}))
     = Num 70000.
Proof.
  assert (H0 : safeInteger 0) by (unfold safeInteger; lia).
  assert (H1 : safeInteger (-1)) by (unfold safeInteger; lia).
  assert (H2 : safeInteger 70000) by (unfold safeInteger; lia).
  split; [tauto |].
  split; [| split].
  - exact (proj1 (proj2 (envNumber_round_trip ∅ 0 H0))).
  - exact (proj1 (proj2 (envNumber_round_trip ∅ (-1) H1))).
  - exact (proj1 (proj2 (envNumber_round_trip {["NODE_ENV" := "production"]} 70000 H2))).
Defined.

(** X6.  [env] returns the empty string only when the default is empty, and
    [envNumber] returns [NaN] only when the default is [NaN]; so every
    setting of the server configuration has a value: no string is empty,
    the client url has a port after the colon, and no number is [NaN]. *)
Theorem serverConfig_complete (processEnv : gmap string string) :
  (forall key d, d <> "" -> env processEnv key d <> "")
  /\ (forall key d, d <> NaN -> envNumber processEnv key d <> NaN)
  /\ nodeEnv (serverConfig processEnv) <> ""
  /\ logLevel (serverConfig processEnv) <> ""
  /\ (exists p, p <> "" /\ clientUrl (serverConfig processEnv) = "http://localhost:" +:+ p)
  /\ port (serverConfig processEnv) <> NaN
  /\ requestTimeout (serverConfig processEnv) <> NaN.
Proof.
  assert (Henv : forall key d, d <> "" -> env processEnv key d <> "").
  { intros key d Hd. unfold env, or.
    destruct (processEnv !! key) as [[| c s] |]; cbn [truthy]; [exact Hd | discriminate | exact Hd]. }
  assert (Hnum : forall key d, d <> NaN -> envNumber processEnv key d <> NaN)
    by (intros key d; apply envNumber_not_NaN).
  split; [exact Henv |]. split; [exact Hnum |].
  cbn [serverConfig nodeEnv logLevel clientUrl port requestTimeout].
  split; [now apply Henv |]. split; [now apply Henv |].
  split; [| split; now apply Hnum].
  exists (env processEnv "VITE_DEV_PORT" "5173"). split; [now apply Henv | reflexivity].
Qed.

(** X7.  [envNumber] skips white space before the number: the variable reads
    the same with and without it. *)
Theorem envNumber_leading_whiteSpace (processEnv : gmap string string)
    (key ws s : string) (d : number) :
  allWhiteSpace ws = true ->
  envNumber (<[key := ws +:+ s]> processEnv) key d
  = envNumber (<[key := s]> processEnv) key d.
Proof.
  intros Hws. unfold envNumber. rewrite !lookup_insert_eq. cbn zeta.
  now rewrite (parseInt_leading_whiteSpace ws s 10 Hws).
Qed.

(** A PORT with a space and a tab before the digits. *)
Example envNumber_leading_blank :
  port (serverConfig {["PORT" := String " " (String (ascii_of_N 9) "8080")]}) = Num 8080.
Proof.
  exact (envNumber_leading_whiteSpace ∅ "PORT" (String " " (String (ascii_of_N 9) ""))
           "8080" (Num 3000) eq_refl).
Defined.

(** X8.  Each setting is read from one variable: the port from PORT, the
    environment name and its two flags from NODE_ENV, the client url from
    VITE_DEV_PORT, the log level from LOG_LEVEL and the timeout from
    REQUEST_TIMEOUT.  Two environments that agree on a variable agree on
    its settings; setting or removing any other variable changes nothing. *)
Theorem serverConfig_reads (processEnv1 processEnv2 : gmap string string) :
  (processEnv1 !! "PORT" = processEnv2 !! "PORT" ->
   port (serverConfig processEnv1) = port (serverConfig processEnv2))
  /\ (processEnv1 !! "NODE_ENV" = processEnv2 !! "NODE_ENV" ->
      nodeEnv (serverConfig processEnv1) = nodeEnv (serverConfig processEnv2)
      /\ isDev (serverConfig processEnv1) = isDev (serverConfig processEnv2)
      /\ isProd (serverConfig processEnv1) = isProd (serverConfig processEnv2))
  /\ (processEnv1 !! "VITE_DEV_PORT" = processEnv2 !! "VITE_DEV_PORT" ->
      clientUrl (serverConfig processEnv1) = clientUrl (serverConfig processEnv2))
  /\ (processEnv1 !! "LOG_LEVEL" = processEnv2 !! "LOG_LEVEL" ->
      logLevel (serverConfig processEnv1) = logLevel (serverConfig processEnv2))
  /\ (processEnv1 !! "REQUEST_TIMEOUT" = processEnv2 !! "REQUEST_TIMEOUT" ->
      requestTimeout (serverConfig processEnv1) = requestTimeout (serverConfig processEnv2))
  /\ (forall key value,
        ~ In key ["PORT"; "NODE_ENV"; "VITE_DEV_PORT"; "LOG_LEVEL"; "REQUEST_TIMEOUT"] ->
        serverConfig (<[key := value]> processEnv1) = serverConfig processEnv1
        /\ serverConfig (delete key processEnv1) = serverConfig processEnv1).
Proof.
  cbn [serverConfig port nodeEnv isDev isProd clientUrl logLevel requestTimeout].
  split; [apply envNumber_depends |].
  split; [intros Hk; now rewrite (env_depends _ _ _ _ Hk) |].
  split; [intros Hk; now rewrite (env_depends _ _ _ _ Hk) |].
  split; [apply env_depends |].
  split; [apply envNumber_depends |].
  intros key value Hkey. cbn [In] in Hkey.
  assert (Hother : forall k, In k ["PORT"; "NODE_ENV"; "VITE_DEV_PORT"; "LOG_LEVEL";
                                   "REQUEST_TIMEOUT"] ->
                             (<[key := value]> processEnv1) !! k = processEnv1 !! k
                             /\ delete key processEnv1 !! k = processEnv1 !! k).
  { intros k Hk. assert (key <> k) by (cbn [In] in Hk; intros ->; tauto).
    split; [now apply lookup_insert_ne | now apply lookup_delete_ne]. }
  unfold serverConfig.
  split.
  - rewrite (envNumber_depends _ processEnv1 "PORT");
      [| apply Hother; cbn; tauto].
    rewrite (envNumber_depends _ processEnv1 "REQUEST_TIMEOUT");
      [| apply Hother; cbn; tauto].
    rewrite (env_depends _ processEnv1 "NODE_ENV");
      [| apply Hother; cbn; tauto].
    rewrite (env_depends _ processEnv1 "VITE_DEV_PORT");
      [| apply Hother; cbn; tauto].
    rewrite (env_depends _ processEnv1 "LOG_LEVEL");
      [| apply Hother; cbn; tauto].
    reflexivity.
  - rewrite (envNumber_depends (delete key processEnv1) processEnv1 "PORT");
      [| apply Hother; cbn; tauto].
    rewrite (envNumber_depends (delete key processEnv1) processEnv1 "REQUEST_TIMEOUT");
      [| apply Hother; cbn; tauto].
    rewrite (env_depends (delete key processEnv1) processEnv1 "NODE_ENV");
      [| apply Hother; cbn; tauto].
    rewrite (env_depends (delete key processEnv1) processEnv1 "VITE_DEV_PORT");
      [| apply Hother; cbn; tauto].
    rewrite (env_depends (delete key processEnv1) processEnv1 "LOG_LEVEL");
      [| apply Hother; cbn; tauto].
    reflexivity.
Qed.

Lemma dotenvConfig_set parsed processEnv key v :
  processEnv !! key = Some v -> dotenvConfig parsed processEnv !! key = Some v.
Proof. intros Hk. unfold dotenvConfig. now apply lookup_union_Some_l. Qed.

Lemma dotenvConfig_unset parsed processEnv key :
  processEnv !! key = None -> dotenvConfig parsed processEnv !! key = parsed !! key.
Proof. intros Hk. unfold dotenvConfig. now apply lookup_union_r. Qed.

(** X9.  A variable the process already has wins over the .env file, which
    supplies only the variables the process lacks.  A variable the process
    has with an empty value hides the one of the file as well: the setting
    then falls back to its default. *)
Theorem process_env_wins (parsed processEnv : gmap string string) (key : string) :
  (forall v d dn, processEnv !! key = Some v ->
     env (dotenvConfig parsed processEnv) key d = env processEnv key d
     /\ envNumber (dotenvConfig parsed processEnv) key dn = envNumber processEnv key dn)
  /\ (forall d dn, processEnv !! key = None ->
        env (dotenvConfig parsed processEnv) key d = env parsed key d
        /\ envNumber (dotenvConfig parsed processEnv) key dn = envNumber parsed key dn)
  /\ (processEnv !! "PORT" = Some "" -> port (loadedConfig parsed processEnv) = Num 3000)
  /\ (processEnv !! "NODE_ENV" = Some "" ->
      nodeEnv (loadedConfig parsed processEnv) = "development").
Proof.
  split; [| split; [| split]].
  - intros v d dn Hk. pose proof (dotenvConfig_set parsed _ _ _ Hk) as Hl.
    split; [apply env_depends | apply envNumber_depends]; congruence.
  - intros d dn Hk. pose proof (dotenvConfig_unset parsed _ _ Hk) as Hl.
    split; [apply env_depends | apply envNumber_depends]; exact Hl.
  - intros Hk. unfold loadedConfig. cbn [serverConfig port].
    apply (envNumber_NaN _ _ _ ""); [now apply dotenvConfig_set | reflexivity].
  - intros Hk. unfold loadedConfig. cbn [serverConfig nodeEnv].
    apply env_empty. now apply dotenvConfig_set.
Qed.

(** PORT=8080 in the file: it is used when the process has no PORT, and
    hidden by PORT=9000 and by an empty PORT of the process. *)
Example process_env_wins_port :
  port (loadedConfig {["PORT" := "8080"]} ∅) = Num 8080
  /\ port (loadedConfig {["PORT" := "8080"]} {["PORT" := "9000"]}) = Num 9000
  /\ port (loadedConfig {["PORT" := "8080"]} {["PORT" := EmptyString]}) = Num 3000.
Proof.
  destruct (process_env_wins {["PORT" := "8080"]} ∅ "PORT") as (_ & Hunset & _).
  destruct (process_env_wins {["PORT" := "8080"]} {["PORT" := "9000"]} "PORT")
    as (Hset & _).
  destruct (process_env_wins {["PORT" := "8080"]} {["PORT" := EmptyString]} "PORT")
    as (_ & _ & Hblank & _).
  split; [| split].
  - exact (proj2 (Hunset "" (Num 3000) eq_refl)).
  - exact (proj2 (Hset "9000" "" (Num 3000) eq_refl)).
  - exact (Hblank eq_refl).
Defined.

End ConfigMoreFacts.
(** ** Startup and signals *)

Module LifecycleFacts.
Import JS JSText JSTextFacts Config ConfigFacts ConfigMoreFacts Http Index IndexFacts Lifecycle.

(** The console after successive shutdowns: each call logs its line, and
    the confirmation follows at once under the mocked [close] only. *)
Lemma shutdowns_console signals p :
  console (world (shutdowns signals p))
  = console (world p)
    ++ flat_map (fun s => shutdownLine s ::
                            match closeImpl (httpServer p) with
                            | MockClose => [closedLine]
                            | NodeClose => []
                            end) signals.
Proof.
  revert p. induction signals as [| s signals IH]; intros p.
  - cbn. now rewrite app_nil_r.
  - change (shutdowns (s :: signals) p) with (shutdowns signals (gracefulShutdown s p)).
    rewrite IH, gracefulShutdown_closeImpl. cbn [flat_map].
    destruct (closeImpl (httpServer p)) eqn:Himpl.
    + destruct (gracefulShutdown_node s p Himpl) as [-> _].
      now rewrite <- app_assoc.
    + rewrite (gracefulShutdown_mock s p Himpl). now rewrite <- app_assoc.
Qed.

Lemma shutdowns_closeCalls signals p :
  closeCalls (httpServer (shutdowns signals p))
  = (closeCalls (httpServer p) + length signals)%nat.
Proof.
  revert p. induction signals as [| s signals IH]; intros p.
  - cbn. lia.
  - change (shutdowns (s :: signals) p) with (shutdowns signals (gracefulShutdown s p)).
    rewrite IH, gracefulShutdown_closeCalls. cbn [length]. lia.
Qed.

Lemma deliver_names names m :
  fold_left (fun m name => setProcess (gracefulShutdown name (process m)) m) names m
  = setProcess (shutdowns names (process m)) m.
Proof.
  revert m. induction names as [| name names IH]; intros m.
  - cbn. now destruct m.
  - cbn [fold_left]. rewrite IH. reflexivity.
Qed.

Lemma deliver_process signal n :
  deliver signal n = setProcess (shutdowns (listenersFor signal n) (process n)) n.
Proof. unfold deliver. apply deliver_names. Qed.

Lemma startServer_returns processEnv n n' :
  startServer processEnv n = Returns tt n' ->
  signalListeners n' = signalListeners n ++ [("SIGTERM", "SIGTERM"); ("SIGINT", "SIGINT")]
  /\ console (world (process n'))
     = console (world (process n)) ++ bannersOf (listenImpl n) processEnv 1
  /\ listenImpl n' = listenImpl n
  /\ closeImpl (httpServer (process n')) = closeImpl (httpServer (process n))
  /\ closeCalls (httpServer (process n')) = closeCalls (httpServer (process n))
  /\ listenCalls n' = listenCalls n ++ [PORT processEnv].
Proof.
  unfold startServer, listen, bannersOf.
  destruct (listenImpl n) eqn:Himpl.
  - destruct (listening (httpServer (process n))); [discriminate |].
    destruct (legalPort (PORT processEnv)); [| discriminate].
    intros [= <-]. cbn. rewrite <- app_assoc, app_nil_r. tauto.
  - intros [= <-]. cbn. rewrite <- app_assoc, app_nil_r. tauto.
  - intros [= <-]. cbn. rewrite <- app_assoc. tauto.
Qed.

Lemma bannersOf_succ impl processEnv k :
  bannersOf impl processEnv 1 ++ bannersOf impl processEnv k
  = bannersOf impl processEnv (S k).
Proof. now destruct impl. Qed.

Lemma startTimes_returns processEnv k n n' :
  startTimes k processEnv n = Returns tt n' ->
  signalListeners n'
  = signalListeners n ++ concat (repeat [("SIGTERM", "SIGTERM"); ("SIGINT", "SIGINT")] k)
  /\ console (world (process n'))
     = console (world (process n)) ++ bannersOf (listenImpl n) processEnv k
  /\ listenImpl n' = listenImpl n
  /\ closeImpl (httpServer (process n')) = closeImpl (httpServer (process n))
  /\ closeCalls (httpServer (process n')) = closeCalls (httpServer (process n))
  /\ listenCalls n' = listenCalls n ++ repeat (PORT processEnv) k.
Proof.
  revert n. induction k as [| k IH]; intros n.
  - assert (Hnone : bannersOf (listenImpl n) processEnv 0 = [])
      by now destruct (listenImpl n).
    cbn. intros [= <-]. rewrite Hnone, !app_nil_r. tauto.
  - cbn [startTimes]. destruct (startServer processEnv n) as [[] n1 | code n1] eqn:Hstart;
      [| discriminate].
    intros Hrest. destruct (IH n1 Hrest) as (Hl & Hw & Hli & Hi & Hc & Hp).
    destruct (startServer_returns _ _ _ Hstart) as (Hl1 & Hw1 & Hli1 & Hi1 & Hc1 & Hp1).
    rewrite Hl, Hw, Hli, Hi, Hc, Hp, Hl1, Hw1, Hli1, Hi1, Hc1, Hp1.
    cbn [repeat concat]. rewrite <- !app_assoc, bannersOf_succ. tauto.
Qed.

Lemma listenersFor_pairs signal k :
  map snd (List.filter (fun l : string * string => String.eqb (fst l) signal)
             (concat (repeat [("SIGTERM", "SIGTERM"); ("SIGINT", "SIGINT")] k)))
  = if String.eqb "SIGTERM" signal then repeat "SIGTERM" k
    else if String.eqb "SIGINT" signal then repeat "SIGINT" k
    else [].
Proof.
  induction k as [| k IH].
  - now destruct (String.eqb "SIGTERM" signal), (String.eqb "SIGINT" signal).
  - cbn [repeat concat app List.filter fst].
    destruct (String.eqb "SIGTERM" signal) eqn:Ht.
    + apply String.eqb_eq in Ht as <-.
      change (String.eqb "SIGINT" "SIGTERM") with false. cbn [map snd].
      cbn in IH. now rewrite IH.
    + destruct (String.eqb "SIGINT" signal) eqn:Hi; cbn [map snd]; now rewrite IH.
Qed.

(** X1.  [isRunningAsMain] holds exactly when [process.argv[1]] is defined and
    has "index" somewhere in it; [initIfMain] returns [false], leaving the
    process as it is, exactly when it does not hold. *)
Theorem isRunningAsMain_iff (processEnv : gmap string string) (n : Node) :
  (isRunningAsMain n = true
   <-> exists script pre post,
         argv n !! 1%nat = Some script /\ script = pre +:+ "index" +:+ post)
  /\ (argv n !! 1%nat = None -> isRunningAsMain n = false)
  /\ (isRunningAsMain n = false <-> initIfMain processEnv n = Returns false n).
Proof.
  unfold initIfMain, isRunningAsMain.
  destruct (argv n !! 1%nat) as [script |].
  - split; [| split].
    + rewrite includes_iff. split.
      * intros (pre & post & Hs). now exists script, pre, post.
      * intros (script' & pre & post & [= <-] & Hs). now exists pre, post.
    + discriminate.
    + destruct (includes script "index"); [| tauto].
      split; [discriminate |].
      destruct (startServer processEnv n); discriminate.
  - split; [| split]; [| reflexivity | tauto].
    split; [discriminate |]. intros (script & _ & _ & Hs & _). discriminate.
Qed.

(** The scripts of the tests, and a script that only has "index" in a
    directory name. *)
Example isRunningAsMain_samples :
  isRunningAsMain (loaded "/path/to/index.js" MockListen MockClose) = true
  /\ isRunningAsMain (loaded "/app/node_modules/vitest/vitest.mjs" MockListen MockClose) = false
  /\ isRunningAsMain (loaded "/srv/reindexer/server.js" MockListen MockClose) = true
  /\ initIfMain ∅ (loaded "/app/node_modules/vitest/vitest.mjs" NodeListen NodeClose)
     = Returns false (loaded "/app/node_modules/vitest/vitest.mjs" NodeListen NodeClose).
Proof.
  pose proof (isRunningAsMain_iff ∅ (loaded "/path/to/index.js" MockListen MockClose))
    as (H1 & _).
  pose proof (isRunningAsMain_iff ∅
                (loaded "/app/node_modules/vitest/vitest.mjs" NodeListen NodeClose))
    as (_ & _ & H2).
  pose proof (isRunningAsMain_iff ∅ (loaded "/srv/reindexer/server.js" MockListen MockClose))
    as (H3 & _).
  split; [| split; [| split]].
  - apply H1. now exists "/path/to/index.js", "/path/to/", ".js".
  - reflexivity.
  - apply H3. now exists "/srv/reindexer/server.js", "/srv/re", "er/server.js".
  - apply H2. reflexivity.
Defined.

(** X2.  Every call of [startServer] that returns registers one more
    listener for SIGTERM and one more for SIGINT, and logs the banner at
    once only when [listen] calls the callback itself.  Once [k] such
    calls have been made on a process without listeners, in whatever state
    the process is by then, one delivery of SIGTERM or of SIGINT runs
    [gracefulShutdown] [k] times with the name of that signal: [close] is
    called [k] more times and the shutdown line of that signal is logged
    [k] times; any other signal runs nothing. *)
Theorem signals_after_starts (processEnv : gmap string string) (n n' : Node)
    (k : nat) (signal : string) :
  signalListeners n = [] ->
  startTimes k processEnv n = Returns tt n' ->
  signalListeners n' = concat (repeat [("SIGTERM", "SIGTERM"); ("SIGINT", "SIGINT")] k)
  /\ console (world (process n'))
     = console (world (process n))
       ++ match listenImpl n with
          | MockListenCalling =>
              repeat ("info", banner (NODE_ENV processEnv) (PORT processEnv)) k
          | _ => []
          end
  /\ forall m,
       signalListeners m = signalListeners n' ->
       (signal = "SIGTERM" \/ signal = "SIGINT" ->
        process (deliver signal m) = shutdowns (repeat signal k) (process m)
        /\ closeCalls (httpServer (process (deliver signal m)))
           = (closeCalls (httpServer (process m)) + k)%nat
        /\ console (world (process (deliver signal m)))
           = console (world (process m))
             ++ flat_map (fun s => shutdownLine s ::
                                     match closeImpl (httpServer (process m)) with
                                     | MockClose => [closedLine]
                                     | NodeClose => []
                                     end) (repeat signal k))
       /\ (signal <> "SIGTERM" -> signal <> "SIGINT" -> deliver signal m = m).
Proof.
  intros Hnone Hstarts.
  destruct (startTimes_returns _ _ _ _ Hstarts) as (Hl & Hw & _).
  rewrite Hnone in Hl. cbn [app] in Hl.
  split; [exact Hl |]. split; [exact Hw |].
  intros m Hm. rewrite Hl in Hm.
  assert (Hfor : listenersFor signal m
                 = if String.eqb "SIGTERM" signal then repeat "SIGTERM" k
                   else if String.eqb "SIGINT" signal then repeat "SIGINT" k
                   else []).
  { unfold listenersFor. rewrite Hm. apply listenersFor_pairs. }
  split.
  - intros Hsig.
    assert (Hnames : listenersFor signal m = repeat signal k).
    { rewrite Hfor. destruct Hsig as [-> | ->]; reflexivity. }
    rewrite deliver_process, Hnames. cbn [process setProcess].
    split; [reflexivity |]. split.
    + rewrite shutdowns_closeCalls, repeat_length. reflexivity.
    + rewrite shutdowns_console. reflexivity.
  - intros Ht Hi'. rewrite deliver_process, Hfor.
    destruct (String.eqb_spec "SIGTERM" signal); [congruence |].
    destruct (String.eqb_spec "SIGINT" signal); [congruence |].
    cbn. now destruct m.
Qed.

(** [startServer] twice under a mocked [listen], as the tests do, then
    SIGTERM under the mocked [close]: two shutdowns.  Under the mock that
    calls the callback the banner is logged twice before them. *)
Example signals_after_two_starts :
  exists n',
    startTimes 2 ∅ (loaded "/app/dist/index.js" MockListenCalling MockClose)
    = Returns tt n'
    /\ console (world (process n'))
       = [("info", banner "development" (Num 3000));
          ("info", banner "development" (Num 3000))]
    /\ closeCalls (httpServer (process (deliver "SIGTERM" n'))) = 2%nat
    /\ console (world (process (deliver "SIGTERM" n')))
       = [("info", banner "development" (Num 3000));
          ("info", banner "development" (Num 3000));
          shutdownLine "SIGTERM"; closedLine; shutdownLine "SIGTERM"; closedLine]
    /\ deliver "SIGHUP" n' = n'.
Proof.
  eexists. split; [reflexivity |].
  match goal with
  | |- context [deliver "SIGTERM" ?m] =>
      destruct (signals_after_starts ∅
                  (loaded "/app/dist/index.js" MockListenCalling MockClose)
                  m 2 "SIGTERM" eq_refl eq_refl) as (_ & Hbanner & Hterm);
      destruct (signals_after_starts ∅
                  (loaded "/app/dist/index.js" MockListenCalling MockClose)
                  m 2 "SIGHUP" eq_refl eq_refl) as (_ & _ & Hother);
      destruct (Hterm m eq_refl) as (Hterm' & _);
      destruct (Hother m eq_refl) as (_ & Hother')
  end.
  destruct (Hterm' (or_introl eq_refl)) as (_ & Hcalls & Hcons).
  split; [exact Hbanner |]. split; [exact Hcalls |]. split; [exact Hcons |].
  apply Hother'; discriminate.
Defined.





End LifecycleFacts.
(** ** Requests through the application *)

Module ServingFacts.
Import JS JSDate JSDateFacts Config ConfigFacts ConfigMoreFacts.
Import Http Express Middleware Health App AppFacts Serving.

Section WithPlatform.
Context `{Platform}.

(** The routes write nothing and do not fail. *)
Lemma routes_quiet processEnv req res w :
  match snd (dispatch (routeLayers (createApp processEnv)) req res w) with
  | Error _ _ _ => False
  | out => worldAfter out = w
  end.
Proof.
  rewrite routes_dispatch.
  destruct (matchLayer (Route "GET" "/health") (method req) (url req));
    [reflexivity |].
  destruct (matchLayer (Mount "/api/health") (method req) (url req)) as [u |];
    [| reflexivity].
  destruct (matchLayer (Route "GET" "/") (method req) u); reflexivity.
Qed.

(** What one request does to the world, and whether the logger ran. *)
Lemma handleRequest_logs processEnv req w :
  snd (snd (handleRequest (createApp processEnv) req w))
  = {| clock := clock w; uptimeNanos := uptimeNanos w;
       console := console w
                  ++ (if reachesLogger processEnv req
                      then [("info", logLine (clock w) (method req) (url req))]
                      else [])
                  ++ errorEntries processEnv req |}
  /\ (In RequestLogger (fst (handleRequest (createApp processEnv) req w))
      <-> reachesLogger processEnv req = true).
Proof.
  rewrite handleRequest_createApp, middleware_dispatch, pipeline_cascade.
  unfold errorEntries, failure, reachesLogger, middlewareOrder.
  cbn [firstFailure].
  assert (Hw : forall l : list (string * string),
            {| clock := clock w; uptimeNanos := uptimeNanos w;
               console := console w ++ [] ++ l |}
            = {| clock := clock w; uptimeNanos := uptimeNanos w;
                 console := console w ++ l |}) by reflexivity.
  assert (Hw0 : {| clock := clock w; uptimeNanos := uptimeNanos w;
                   console := console w ++ [] |} = w)
    by (rewrite app_nil_r; now destruct w).
  destruct (helmet req) as [b1 h1 | r | err].
  2:{ cbn. rewrite Hw0. split; [reflexivity |].
      split; [intros [? | []]; discriminate | discriminate]. }
  2:{ cbn. unfold logerror.
      split; [destruct (String.eqb _ "test"); cbn; [now rewrite Hw0 | reflexivity] |].
      split; [intros [? | []]; discriminate | discriminate]. }
  destruct (cors _ (setBody b1 req)) as [b2 h2 | r | err].
  2:{ cbn. rewrite Hw0. split; [reflexivity |].
      split; [intros [? | [? | []]]; discriminate | discriminate]. }
  2:{ cbn. unfold logerror.
      split; [destruct (String.eqb _ "test"); cbn; [now rewrite Hw0 | reflexivity] |].
      split; [intros [? | [? | []]]; discriminate | discriminate]. }
  destruct (compression (setBody b2 (setBody b1 req))) as [b3 h3 | r | err].
  2:{ cbn. rewrite Hw0. split; [reflexivity |].
      split; [intros [? | [? | [? | []]]]; discriminate | discriminate]. }
  2:{ cbn. unfold logerror.
      split; [destruct (String.eqb _ "test"); cbn; [now rewrite Hw0 | reflexivity] |].
      split; [intros [? | [? | [? | []]]]; discriminate | discriminate]. }
  cbv zeta.
  destruct (express_json _) as [b4 h4 | r | err].
  2:{ cbn. rewrite ?app_nil_r. split; [reflexivity |].
      split; [reflexivity | intros _; auto 10]. }
  2:{ cbn. unfold logerror.
      split; [destruct (String.eqb _ "test"); unfold consoleCall; cbn;
              rewrite <- ?app_assoc, ?app_nil_r; reflexivity |].
      split; [reflexivity | intros _; auto 10]. }
  destruct (express_urlencoded _ _) as [b5 h5 | r | err].
  2:{ cbn. rewrite ?app_nil_r. split; [reflexivity |].
      split; [reflexivity | intros _; auto 10]. }
  2:{ cbn. unfold logerror.
      split; [destruct (String.eqb _ "test"); unfold consoleCall; cbn;
              rewrite <- ?app_assoc, ?app_nil_r; reflexivity |].
      split; [reflexivity | intros _; auto 10]. }
  match goal with
  | |- context [dispatch (routeLayers ?a) ?r ?s ?x] =>
      pose proof (routes_quiet processEnv r s x) as Hq;
      destruct (dispatch (routeLayers a) r s x) as [ran [? ? w2 | ? w2 | ? ? ?]]
  end; cbn [snd fst worldAfter] in *; [| | contradiction].
  - subst w2. cbn. rewrite ?app_nil_r. split; [reflexivity |]. split; [reflexivity |].
    intros _. auto 10.
  - subst w2. cbn. rewrite ?app_nil_r. split; [reflexivity |]. split; [reflexivity |].
    intros _. auto 10.
Qed.

(** X10.  A request is logged exactly when helmet, cors and compression
    pass it on: the logger then writes the one info line with the time,
    the method and the url of the request, whatever happens to the request
    afterwards (a body the parsers refuse, a route, no route at all).  The
    only other console call is the framework's: when a stage of the
    middleware fails, the error is printed after the request, unless the
    'env' setting is "test".  Handling a request never touches the clock
    or the uptime. *)
Theorem request_logged_once (processEnv : gmap string string) (req : Request) (w : World) :
  let ran := fst (handleRequest (createApp processEnv) req w) in
  let w' := snd (snd (handleRequest (createApp processEnv) req w)) in
  (In RequestLogger ran <-> reachesLogger processEnv req = true)
  /\ console w'
     = console w
       ++ (if reachesLogger processEnv req
           then [("info", logLine (clock w) (method req) (url req))]
           else [])
       ++ match failure processEnv req with
          | Some err =>
              if String.eqb (nodeEnv (serverConfig processEnv)) "test" then []
              else [("error", errStack err)]
          | None => []
          end
  /\ List.filter isInfo (console w')
     = List.filter isInfo (console w)
       ++ (if reachesLogger processEnv req
           then [("info", logLine (clock w) (method req) (url req))]
           else [])
  /\ clock w' = clock w
  /\ uptimeNanos w' = uptimeNanos w.
Proof.
  cbv zeta. destruct (handleRequest_logs processEnv req w) as (Hw & Hran).
  rewrite Hw. cbn [console clock uptimeNanos].
  split; [exact Hran |]. split; [reflexivity |].
  split; [| split; reflexivity].
  rewrite !List.filter_app.
  assert (Herr : List.filter isInfo (errorEntries processEnv req) = []).
  { unfold errorEntries. destruct (failure processEnv req); [| reflexivity].
    now destruct (String.eqb _ "test"). }
  rewrite Herr, app_nil_r. now destruct (reachesLogger processEnv req).
Qed.

Lemma serve_cons (app : Application) a rest w :
  serve app (a :: rest) w
  = (fst (snd (handleRequest app (request a) (arrive a w)))
       :: fst (serve app rest (snd (snd (handleRequest app (request a) (arrive a w))))),
     snd (serve app rest (snd (snd (handleRequest app (request a) (arrive a w)))))).
Proof.
  cbn [serve].
  destruct (handleRequest app (request a) (arrive a w)) as [ran [res w1]].
  cbn [fst snd]. now destruct (serve app rest w1).
Qed.

Lemma filter_isInfo_entries processEnv a :
  List.filter isInfo (entries processEnv a)
  = if reachesLogger processEnv (request a) then [logEntry a] else [].
Proof.
  unfold entries. rewrite List.filter_app.
  assert (Herr : List.filter isInfo (errorEntries processEnv (request a)) = []).
  { unfold errorEntries. destruct (failure processEnv (request a)); [| reflexivity].
    now destruct (String.eqb _ "test"). }
  rewrite Herr, app_nil_r. now destruct (reachesLogger processEnv (request a)).
Qed.

(** X11.  The access log: after the application has answered a sequence
    of requests one after the other, every one of them has a response, and
    the console has grown by the calls made for each request in turn: the
    logger's line for a request that reached the logger, stamped with the
    time of its own arrival, then the error the framework prints when the
    middleware failed on it.  So the info lines are those of the requests
    that reached the logger, in the order of arrival. *)
Theorem access_log (processEnv : gmap string string) (arrivals : list Arrival) (w : World) :
  length (fst (serve (createApp processEnv) arrivals w)) = length arrivals
  /\ console (snd (serve (createApp processEnv) arrivals w))
     = console w ++ flat_map (entries processEnv) arrivals
  /\ List.filter isInfo (console (snd (serve (createApp processEnv) arrivals w)))
     = List.filter isInfo (console w)
       ++ map logEntry
            (List.filter (fun a => reachesLogger processEnv (request a)) arrivals).
Proof.
  assert (Hcons : forall w,
            length (fst (serve (createApp processEnv) arrivals w)) = length arrivals
            /\ console (snd (serve (createApp processEnv) arrivals w))
               = console w ++ flat_map (entries processEnv) arrivals).
  { induction arrivals as [| a rest IH]; intros w0.
    - cbn. now rewrite app_nil_r.
    - rewrite serve_cons. cbn [fst snd length flat_map].
      destruct (handleRequest_logs processEnv (request a) (arrive a w0)) as (Hw & _).
      rewrite Hw. clear Hw.
      match goal with
      | |- context [serve _ rest ?w1] => destruct (IH w1) as (Hlen & Hc)
      end.
      rewrite Hlen, Hc. split; [reflexivity |].
      cbn [console arrive clock]. unfold entries, logEntry.
      now rewrite <- !app_assoc. }
  destruct (Hcons w) as (Hlen & Hc).
  split; [exact Hlen |]. split; [exact Hc |].
  rewrite Hc, List.filter_app. f_equal.
  clear. induction arrivals as [| a rest IH]; [reflexivity |].
  cbn [flat_map List.filter]. rewrite List.filter_app, filter_isInfo_entries, IH.
  now destruct (reachesLogger processEnv (request a)).
Qed.


End WithPlatform.

End ServingFacts.

(** ** Requests through the application on the example platform *)

Module ServingExamples.
Import JS JSDate Http Express App Plain Serving ServingFacts.

#[local] Existing Instance refusingPlatform.

(** A request without a route is logged all the same; one with a body the
    JSON parser refuses is logged, and the framework prints the error
    unless NODE_ENV is test. *)
Example request_logged_once_examples :
  console (snd (snd (handleRequest (createApp ∅) (Plain.request "POST" "/nowhere")
                       {| clock := 0; uptimeNanos := 0; console := [] |})))
  = [("info", "[1970-01-01T00:00:00.000Z] POST /nowhere")]
  /\ console (snd (snd (handleRequest (createApp ∅) malformedPost
                          {| clock := 0; uptimeNanos := 0; console := [] |})))
     = [("info", "[1970-01-01T00:00:00.000Z] POST /health");
        ("error", "SyntaxError: Unexpected token in JSON at position 0")]
  /\ console (snd (snd (handleRequest (createApp {["NODE_ENV" := "test"]}) malformedPost
                          {| clock := 0; uptimeNanos := 0; console := [] |})))
     = [("info", "[1970-01-01T00:00:00.000Z] POST /health")].
Proof.
  destruct (request_logged_once ∅ (Plain.request "POST" "/nowhere")
              {| clock := 0; uptimeNanos := 0; console := [] |}) as (_ & H1 & _).
  destruct (request_logged_once ∅ malformedPost
              {| clock := 0; uptimeNanos := 0; console := [] |}) as (_ & H2 & _).
  destruct (request_logged_once {["NODE_ENV" := "test"]}
              malformedPost {| clock := 0; uptimeNanos := 0; console := [] |})
    as (_ & H3 & _).
  split; [exact H1 |]. split; [exact H2 | exact H3].
Defined.

(** Three requests a second apart: one to /health, one with a body the
    JSON parser refuses, one that cors answers itself. *)
Example access_log_example :
  console (snd (serve (createApp ∅)
                  [ {| at_ := 0; upFor := 5;
                       Serving.request := Plain.request "GET" "/health" |};
                    {| at_ := 1000; upFor := 6; Serving.request := malformedPost |};
                    {| at_ := 2000; upFor := 7;
                       Serving.request := Plain.request "OPTIONS" "/health" |} ]
                  {| clock := 0; uptimeNanos := 0; console := [] |}))
  = [("info", "[1970-01-01T00:00:00.000Z] GET /health");
     ("info", "[1970-01-01T00:00:01.000Z] POST /health");
     ("error", "SyntaxError: Unexpected token in JSON at position 0")].
Proof.
  exact (proj1 (proj2 (access_log ∅
                  [ {| at_ := 0; upFor := 5;
                       Serving.request := Plain.request "GET" "/health" |};
                    {| at_ := 1000; upFor := 6; Serving.request := malformedPost |};
                    {| at_ := 2000; upFor := 7;
                       Serving.request := Plain.request "OPTIONS" "/health" |} ]
                  {| clock := 0; uptimeNanos := 0; console := [] |}))).
Defined.


End ServingExamples.
(** ** The status line of the interactive page *)

Module AppPageStatusFacts.
Import JS Http AppPage AppPageStatus.

Lemma message_step s e :
  message (step s e) = if isClick e then message s else message (step mount e).
Proof. destruct e as [| data |]; [| destruct data |]; reflexivity. Qed.

Lemma lastOutcome_seen events m :
  lastOutcome events (Some m)
  = Some (match lastOutcome events None with Some m' => m' | None => m end).
Proof.
  revert m. induction events as [| e events IH]; intros m; [reflexivity |].
  cbn [lastOutcome]. destruct (isClick e); [apply IH |].
  rewrite (IH (message (step mount e))). now destruct (lastOutcome events None).
Qed.

Lemma message_run events s :
  message (run events s)
  = match lastOutcome events None with Some m => m | None => message s end.
Proof.
  revert s. induction events as [| e events IH]; intros s; [reflexivity |].
  change (run (e :: events) s) with (run events (step s e)). rewrite IH, message_step.
  cbn [lastOutcome]. destruct (isClick e); [reflexivity |].
  rewrite lastOutcome_seen. now destruct (lastOutcome events None).
Qed.

(** X14.  The status place follows the fetch alone.  It holds "Loading..."
    until an outcome arrives, and again after a response whose message is
    missing or falsy (the empty string, zero, [false], [null]); otherwise
    it holds the message of the last outcome, whatever JSON value that is.
    A failed fetch and a response that is [null] both leave "Server not
    connected".  What the place holds is never falsy, and a click on
    Increment leaves it as it is. *)
Theorem status_follows_fetch (events : list Event) :
  status (render (run events mount))
  = match lastOutcome events None with
    | Some (Some j) => if truthyJson j then j else JString "Loading..."
    | Some None | None => JString "Loading..."
    end
  /\ (forall s, truthyJson (status (render s)) = true)
  /\ (forall s, status (render (step s ClickIncrement)) = status (render s))
  /\ status (render (run (events ++ [FetchRejected]) mount))
     = JString "Server not connected"
  /\ status (render (run (events ++ [FetchResolved JNull]) mount))
     = JString "Server not connected"
  /\ (forall fields,
        status (render (run (events ++ [FetchResolved (JObject fields)]) mount))
        = match field "message" fields with
          | Some j => if truthyJson j then j else JString "Loading..."
          | None => JString "Loading..."
          end)
  /\ (forall data,
        match data with JNull | JObject _ => False | _ => True end ->
        status (render (run (events ++ [FetchResolved data]) mount))
        = JString "Loading...").
Proof.
  split; [| split; [| split; [| split; [| split; [| split]]]]].
  - cbn [render status]. rewrite message_run.
    now destruct (lastOutcome events None) as [[j |] |].
  - intros s. cbn [render status].
    destruct (message s) as [j |]; [| reflexivity].
    now destruct (truthyJson j) eqn:Hj.
  - intros s. reflexivity.
  - unfold run. rewrite fold_left_app. reflexivity.
  - unfold run. rewrite fold_left_app. reflexivity.
  - intros fields. unfold run. rewrite fold_left_app. reflexivity.
  - intros data Hdata. unfold run. rewrite fold_left_app.
    destruct data; try contradiction; reflexivity.
Qed.

(** A response without a message leaves "Loading..." on the page, also
    after clicks; a response that is [null] reads as a failure; a message
    that is a number is kept as it is. *)
Example status_of_outcomes :
  status (render (run [ClickIncrement;
                       FetchResolved (JObject [("message", JString "")])] mount))
  = JString "Loading..."
  /\ status (render (run [FetchResolved (JObject [("status", JString "ok")]);
                          ClickIncrement] mount))
     = JString "Loading..."
  /\ status (render (run [FetchRejected;
                          FetchResolved (JObject [("message",
                                                   JString "Server is running")])]
                       mount))
     = JString "Server is running"
  /\ status (render (run [FetchResolved JNull] mount)) = JString "Server not connected"
  /\ status (render (run [FetchResolved
                            (JObject [("message", JNumber (QArith_base.Qmake 42 1))])]
                       mount))
     = JNumber (QArith_base.Qmake 42 1).
Proof.
  split; [| split; [| split; [| split]]].
  - exact (proj1 (status_follows_fetch
                    [ClickIncrement; FetchResolved (JObject [("message", JString "")])])).
  - exact (proj1 (status_follows_fetch
                    [FetchResolved (JObject [("status", JString "ok")]); ClickIncrement])).
  - exact (proj1 (status_follows_fetch
                    [FetchRejected;
                     FetchResolved (JObject [("message", JString "Server is running")])])).
  - exact (proj1 (status_follows_fetch [FetchResolved JNull])).
  - exact (proj1 (status_follows_fetch
                    [FetchResolved
                       (JObject [("message", JNumber (QArith_base.Qmake 42 1))])])).
Defined.

End AppPageStatusFacts.
